(** * CI cost estimation: the cost model and the run aggregator

    A shallow embedding of the cost computation of the repository
    (the CLI's [pricing.js] and the web application's [calculateRepoCost])
    together with the properties its specification states about it.

    Number model.  Where a property concerns control flow, signs, zero
    contributions or counts, JavaScript numbers are modelled by exact
    rationals [Q] (compared with [==]), and the rounding of binary64
    arithmetic plays no part.  The only place where the code can leave the
    finite numbers is the division by [days] in the projections, so the
    quotient and the products built from it live in [Js.number], the
    rationals extended with the two infinities and NaN.  Where a property
    depends on rounding (whether a cost is the product of minutes and rate,
    how a running sum comes out), the cost model is read over binary64
    itself, in module [F64].

    Timestamps.  A job's [started_at] / [completed_at] is an ISO-8601 string
    or null; it is represented by the value [new Date(s).getTime()] yields
    (milliseconds since the epoch, an integer), [None] standing for a falsy
    field (null, undefined or the empty string). *)

From Stdlib Require Import QArith Lqa ZArith Lia List String Ascii Bool.
From stdpp Require Import gmap strings.
From Stdlib Require Floats.

Import ListNotations.
Local Open Scope Q_scope.
Set Warnings "-inexact-float".

(** ** JavaScript values and control effects *)

Module Js.

(** The result of [/] and [*] on numbers, where a zero divisor is possible. *)
Inductive number : Type :=
| Finite (q : Q)
| PosInfinity
| NegInfinity
| NaN.

(** [a < b] and [a > b] on finite numbers. *)
Definition lt (a b : Q) : bool := negb (Qle_bool b a).
Definition gt (a b : Q) : bool := lt b a.

(** [a / b] on finite operands: a zero divisor gives an infinity with the
    sign of [a], or NaN for [0 / 0]. *)
Definition div (a b : Q) : number :=
  if Qeq_bool b 0 then
    if gt a 0 then PosInfinity
    else if lt a 0 then NegInfinity
    else NaN
  else Finite (a / b).

(** [a * m] for a finite [a]. *)
Definition mul (a : Q) (m : number) : number :=
  match m with
  | Finite q => Finite (a * q)
  | PosInfinity =>
      if gt a 0 then PosInfinity
      else if lt a 0 then NegInfinity else NaN
  | NegInfinity =>
      if gt a 0 then NegInfinity
      else if lt a 0 then PosInfinity else NaN
  | NaN => NaN
  end.

(** Thrown values: [new Error(message)]. *)
Inductive error : Type := Error (message : string).

(** A computation either returns or throws. *)
Inductive outcome (A : Type) : Type :=
| Returned (a : A)
| Thrown (e : error).
Arguments Returned {A} a.
Arguments Thrown {A} e.

Definition bind {A B} (c : outcome A) (k : A -> outcome B) : outcome B :=
  match c with
  | Returned a => k a
  | Thrown e => Thrown e
  end.

(** [try { c } catch { h }] *)
Definition try_catch {A} (c : outcome A) (h : error -> outcome A) : outcome A :=
  match c with
  | Returned a => Returned a
  | Thrown e => h e
  end.

(** [String.prototype.toLowerCase], on the ASCII letters. *)
Definition lower_ascii (c : ascii) : ascii :=
  let n := nat_of_ascii c in
  if (65 <=? n)%nat && (n <=? 90)%nat then ascii_of_nat (n + 32) else c.

Fixpoint toLowerCase (s : string) : string :=
  match s with
  | EmptyString => EmptyString
  | String c s' => String (lower_ascii c) (toLowerCase s')
  end.

(** [s.includes(needle)]: [needle] occurs in [s] as a contiguous substring. *)
Fixpoint includes (s needle : string) : bool :=
  String.prefix needle s ||
  match s with
  | EmptyString => false
  | String _ s' => includes s' needle
  end.

End Js.

(** stdpp's monad notation [x ← c; k] for sequencing computations that may
    throw. *)
#[global] Instance outcome_ret : MRet Js.outcome := @Js.Returned.
#[global] Instance outcome_bind : MBind Js.outcome :=
  fun A B k c => Js.bind c k.

(** ** The pricing table and the cost model ([pricing.js]) *)

(** The three runner classes; the source names them by their billing key. *)
Inductive RunnerOS : Type := UBUNTU | WINDOWS | MACOS.

Module PRICING.
Definition LINUX : Q := 0.008.
Definition WINDOWS : Q := 0.016.
Definition MACOS : Q := 0.08.
End PRICING.

(** The per-minute rate the code applies to a class. *)
Definition rate (os : RunnerOS) : Q :=
  match os with
  | UBUNTU => PRICING.LINUX
  | WINDOWS => PRICING.WINDOWS
  | MACOS => PRICING.MACOS
  end.

Record OsCost : Type := { minutes : Q; cost : Q }.

Record CostBreakdown : Type :=
  { bUBUNTU : OsCost; bWINDOWS : OsCost; bMACOS : OsCost }.

Record CostResult : Type :=
  { linux : Q; windows : Q; macos : Q; total : Q; breakdown : CostBreakdown }.

Definition bucket (os : RunnerOS) (b : CostBreakdown) : OsCost :=
  match os with
  | UBUNTU => bUBUNTU b
  | WINDOWS => bWINDOWS b
  | MACOS => bMACOS b
  end.

(** One entry of the [billable] object of a run-usage payload.  The API
    schema gives every entry a numeric [total_ms], so the runtime tests
    [osData && typeof osData === "object" && "total_ms" in osData] that
    precede each use of the field always pass; the number itself is
    unconstrained (it may be zero or negative). *)
Record OsUsage : Type := { total_ms : Q }.

(** [timing.billable]: an object keyed by arbitrary strings; the field may be
    missing altogether. *)
Record Timing : Type := { billable : option (gmap string OsUsage) }.

Definition key (os : RunnerOS) : string :=
  match os with
  | UBUNTU => "UBUNTU"
  | WINDOWS => "WINDOWS"
  | MACOS => "MACOS"
  end.

Definition zeroCost : OsCost := {| minutes := 0; cost := 0 |}.

(** The block [if (billable.K) { minutes = billable.K.total_ms / 1000 / 60; ... }]
    for one class. *)
Definition classCost (b : gmap string OsUsage) (os : RunnerOS) : OsCost :=
  match b !! key os with
  | Some u =>
      let minutes := total_ms u / 1000 / 60 in
      {| minutes := minutes; cost := minutes * rate os |}
  | None => zeroCost
  end.

(** The breakdown computed from a [billable] object: the body shared by
    [calculateCost] and by the authoritative branch of [calculateRepoCost]. *)
Definition costOfBillable (b : gmap string OsUsage) : CostResult :=
  let u := classCost b UBUNTU in
  let w := classCost b WINDOWS in
  let m := classCost b MACOS in
  {| linux := cost u; windows := cost w; macos := cost m;
     total := cost u + cost w + cost m;
     breakdown := {| bUBUNTU := u; bWINDOWS := w; bMACOS := m |} |}.

(** [calculateCost(timing)] *)
Definition calculateCost (timing : Timing) : CostResult :=
  costOfBillable (default ∅ (billable timing)).

(** [detectRunnerOS(labels)] *)
Definition detectRunnerOS (labels : list string) : RunnerOS :=
  let labelsLower := map Js.toLowerCase labels in
  if existsb (fun l => Js.includes l "macos" || Js.includes l "mac-os") labelsLower
  then MACOS
  else if existsb (fun l => Js.includes l "windows") labelsLower
  then WINDOWS
  else UBUNTU.

Record Job : Type :=
  { started_at : option Z;
    completed_at : option Z;
    labels : option (list string) }.

Definition emptyCosts : CostResult :=
  {| linux := 0; windows := 0; macos := 0; total := 0;
     breakdown := {| bUBUNTU := zeroCost; bWINDOWS := zeroCost; bMACOS := zeroCost |} |}.

Definition addTo (c : OsCost) (m : Q) (r : Q) : OsCost :=
  {| minutes := minutes c + m; cost := cost c + m * r |}.

(** One iteration of the loop of [calculateCostFromJobs]. *)
Definition addJob (costs : CostResult) (job : Job) : CostResult :=
  match started_at job, completed_at job with
  | Some startTime, Some endTime =>
      let durationMs := (endTime - startTime)%Z in
      let minutes := inject_Z durationMs / 1000 / 60 in
      let b := breakdown costs in
      match detectRunnerOS (default [] (labels job)) with
      | UBUNTU =>
          {| linux := linux costs + minutes * PRICING.LINUX;
             windows := windows costs; macos := macos costs; total := total costs;
             breakdown := {| bUBUNTU := addTo (bUBUNTU b) minutes PRICING.LINUX;
                             bWINDOWS := bWINDOWS b; bMACOS := bMACOS b |} |}
      | WINDOWS =>
          {| linux := linux costs;
             windows := windows costs + minutes * PRICING.WINDOWS;
             macos := macos costs; total := total costs;
             breakdown := {| bUBUNTU := bUBUNTU b;
                             bWINDOWS := addTo (bWINDOWS b) minutes PRICING.WINDOWS;
                             bMACOS := bMACOS b |} |}
      | MACOS =>
          {| linux := linux costs; windows := windows costs;
             macos := macos costs + minutes * PRICING.MACOS; total := total costs;
             breakdown := {| bUBUNTU := bUBUNTU b; bWINDOWS := bWINDOWS b;
                             bMACOS := addTo (bMACOS b) minutes PRICING.MACOS |} |}
      end
  | _, _ => costs
  end.

Definition withTotal (costs : CostResult) : CostResult :=
  {| linux := linux costs; windows := windows costs; macos := macos costs;
     total := linux costs + windows costs + macos costs;
     breakdown := breakdown costs |}.

(** [calculateCostFromJobs(jobs)] *)
Definition calculateCostFromJobs (jobs : list Job) : CostResult :=
  withTotal (fold_left addJob jobs emptyCosts).

(** ** The run aggregator ([calculateRepoCost]) *)

Record Run : Type := { id : Z }.

(** The remote API as the aggregator uses it, for a fixed repository: every
    request either returns its payload or throws.  [listWorkflowRunsForRepo]
    stands for everything [calculateRepoCost] does before its loop: the date
    filter [getDateDaysAgo(days)] and the paginated listing of the completed
    runs created since then. *)
Record Octokit : Type :=
  { listWorkflowRunsForRepo : Q -> Js.outcome (list Run);
    getWorkflowRunUsage : Z -> Js.outcome Timing;
    listJobsForWorkflowRun : Z -> Js.outcome (list Job) }.

(** The scan [for (const osKey of Object.keys(billable))] that sets
    [hasBillableData]: some entry, under any key, has [total_ms > 0]. *)
Definition hasBillableData (b : gmap string OsUsage) : bool :=
  existsb (fun kv => Js.gt (total_ms kv.2) 0) (map_to_list b).

(** The inner [try] block after the fetch: the breakdown computed from the
    usage payload, or the exception [new Error("No billable data")]. *)
Definition costFromTiming (timing : Timing) : Js.outcome CostResult :=
  let billable := default ∅ (billable timing) in
  if hasBillableData billable
  then mret (costOfBillable billable)
  else Js.Thrown (Js.Error "No billable data").

(** The inner [try] block: fetch the usage of the run, then compute from it. *)
Definition costFromUsage (octokit : Octokit) (run : Run) : Js.outcome CostResult :=
  timing ← getWorkflowRunUsage octokit (id run);
  costFromTiming timing.

(** The inner [catch] block: the job-based fallback. *)
Definition costFromJobsOf (octokit : Octokit) (run : Run) : Js.outcome CostResult :=
  jobs ← listJobsForWorkflowRun octokit (id run);
  mret (calculateCostFromJobs jobs).

Definition runCost (octokit : Octokit) (run : Run) : Js.outcome CostResult :=
  Js.try_catch (costFromUsage octokit run) (fun _ => costFromJobsOf octokit run).

(** The loop variables of [calculateRepoCost]. *)
Record Totals : Type :=
  { totalLinuxMinutes : Q;
    totalWindowsMinutes : Q;
    totalMacOSMinutes : Q;
    totalCost : Q;
    analyzed : nat }.

Definition noTotals : Totals :=
  {| totalLinuxMinutes := 0; totalWindowsMinutes := 0; totalMacOSMinutes := 0;
     totalCost := 0; analyzed := 0 |}.

Definition addCost (t : Totals) (c : CostResult) : Totals :=
  {| totalLinuxMinutes := totalLinuxMinutes t + minutes (bUBUNTU (breakdown c));
     totalWindowsMinutes := totalWindowsMinutes t + minutes (bWINDOWS (breakdown c));
     totalMacOSMinutes := totalMacOSMinutes t + minutes (bMACOS (breakdown c));
     totalCost := totalCost t + total c;
     analyzed := S (analyzed t) |}.

(** One iteration of the loop over the runs: the outer [try] adds the cost of
    the run, the outer [catch] only logs the error. *)
Definition processRun (octokit : Octokit) (t : Totals) (run : Run) : Totals :=
  match runCost octokit run with
  | Js.Returned c => addCost t c
  | Js.Thrown _ => t
  end.

Record CalculationResult : Type :=
  { slug : string;
    owner : string;
    repo : string;
    daysAnalyzed : Q;
    totalRuns : nat;
    analyzedRuns : nat;
    linuxMinutes : Q;
    windowsMinutes : Q;
    macosMinutes : Q;
    actualCost : Q;
    monthlyCost : Js.number;
    yearlyCost : Js.number }.

(** The part of [calculateRepoCost] that follows the listing of the runs. *)
Definition aggregate (octokit : Octokit) (owner repo : string) (days : Q)
    (allRuns : list Run) : CalculationResult :=
  let t := fold_left (processRun octokit) allRuns noTotals in
  let monthlyMultiplier := Js.div 30 days in
  let yearlyMultiplier := Js.div 365 days in
  {| slug := owner ++ "/" ++ repo;
     owner := owner;
     repo := repo;
     daysAnalyzed := days;
     totalRuns := length allRuns;
     analyzedRuns := analyzed t;
     linuxMinutes := totalLinuxMinutes t;
     windowsMinutes := totalWindowsMinutes t;
     macosMinutes := totalMacOSMinutes t;
     actualCost := totalCost t;
     monthlyCost := Js.mul (totalCost t) monthlyMultiplier;
     yearlyCost := Js.mul (totalCost t) yearlyMultiplier |}.

(** [calculateRepoCost(owner, repo, days, token)] *)
Definition calculateRepoCost (octokit : Octokit) (owner repo : string) (days : Q)
    : Js.outcome CalculationResult :=
  allRuns ← listWorkflowRunsForRepo octokit days;
  mret (aggregate octokit owner repo days allRuns).

(** The fallback test of the command-line tool ([main]): the authoritative
    cost is dropped when [cost.total === 0]. *)
Definition cliFallsBack (timing : Timing) : bool :=
  Qeq_bool (total (calculateCost timing)) 0.

(** ** Vocabulary of the specification *)

#[global] Instance RunnerOS_eq_dec : EqDecision RunnerOS.
Proof. solve_decision. Defined.

(** [needle] occurs in [s] as a contiguous substring. *)
Definition occurs_in (needle s : string) : Prop :=
  exists a b : string, s = (a +:+ needle +:+ b)%string.

(** Some label, once lower-cased, contains [needle]. *)
Definition mentions (needle : string) (labels : list string) : Prop :=
  exists l, In l labels /\ occurs_in needle (Js.toLowerCase l).

(** The invariant of a cost breakdown: the total is the sum of the three
    per-class costs, and each per-class cost is minutes times rate. *)
Definition breakdown_invariant (r : CostResult) : Prop :=
  total r == cost (bUBUNTU (breakdown r)) + cost (bWINDOWS (breakdown r))
             + cost (bMACOS (breakdown r))
  /\ forall os, cost (bucket os (breakdown r))
                == minutes (bucket os (breakdown r)) * rate os.

(** The class a job is billed to, and the minutes it ran when both of its
    timestamps are present. *)
Definition jobOS (job : Job) : RunnerOS :=
  detectRunnerOS (default [] (labels job)).

Definition jobMinutes (job : Job) : option Q :=
  match started_at job, completed_at job with
  | Some startTime, Some endTime => Some (inject_Z (endTime - startTime) / 60000)
  | _, _ => None
  end.

(** What a job adds to the minutes of class [os]. *)
Definition contribution (os : RunnerOS) (job : Job) : Q :=
  match jobMinutes job with
  | Some m => if decide (jobOS job = os) then m else 0
  | None => 0
  end.

Fixpoint sumQ (l : list Q) : Q :=
  match l with
  | [] => 0
  | x :: l' => x + sumQ l'
  end.

(** A run is lost to the batch when the outer [catch] is reached. *)
Definition runFails (octokit : Octokit) (run : Run) : bool :=
  match runCost octokit run with
  | Js.Returned _ => false
  | Js.Thrown _ => true
  end.

(** No entry of the payload carries a positive duration. *)
Definition noPositiveDuration (b : gmap string OsUsage) : Prop :=
  forall k u, b !! k = Some u -> total_ms u <= 0.

(** Every entry of the payload has duration zero (in particular, the empty
    payload). *)
Definition allZeroDuration (b : gmap string OsUsage) : Prop :=
  forall k u, b !! k = Some u -> total_ms u == 0.

Definition classKey (k : string) : Prop :=
  k = "UBUNTU"%string \/ k = "WINDOWS"%string \/ k = "MACOS"%string.

(** The running per-class cost of [calculateCostFromJobs] ([costs.linux],
    [costs.windows], [costs.macos]). *)
Definition classTotal (os : RunnerOS) (r : CostResult) : Q :=
  match os with
  | UBUNTU => linux r
  | WINDOWS => windows r
  | MACOS => macos r
  end.

(** ** Sample payloads used in the examples *)

(** [{UBUNTU: {total_ms: 0}}] and [{UBUNTU: {total_ms: 60000}}] *)
Definition idleUsage : Timing :=
  {| billable := Some {[ "UBUNTU"%string := {| total_ms := 0 |} ]} |}.

Definition oneMinuteUsage : Timing :=
  {| billable := Some {[ "UBUNTU"%string := {| total_ms := 60000 |} ]} |}.

(** [{UBUNTU: {total_ms: -60000}}] *)
Definition negativeUsage : Timing :=
  {| billable := Some {[ "UBUNTU"%string := {| total_ms := -60000 |} ]} |}.


(** [{OTHER: {total_ms: 1000}, UBUNTU: {total_ms: 0}}]: the only positive
    duration sits under a key that is none of the three classes. *)
Definition foreignUsage : Timing :=
  {| billable := Some (<[ "OTHER"%string := {| total_ms := 1000 |} ]>
                         {[ "UBUNTU"%string := {| total_ms := 0 |} ]}) |}.

(** [{OTHER: {total_ms: 1000}, UBUNTU: {total_ms: -60000}}] *)
Definition foreignNegativeUsage : Timing :=
  {| billable := Some (<[ "OTHER"%string := {| total_ms := 1000 |} ]>
                         {[ "UBUNTU"%string := {| total_ms := -60000 |} ]}) |}.

Definition notFound : Js.error := Js.Error "Not Found".

Definition twoMinuteJob : Job :=
  {| started_at := Some 1000%Z; completed_at := Some 121000%Z;
     labels := Some ["ubuntu-latest"%string] |}.

(** A repository with ten completed runs: runs 1-4 report billable usage,
    runs 5-7 have no usage record but list their jobs, and for runs 8-10 both
    requests fail. *)
Definition tenRuns : list Run := map (fun i => {| id := i |}) [1; 2; 3; 4; 5; 6; 7; 8; 9; 10]%Z.

Definition demoOctokit : Octokit :=
  {| listWorkflowRunsForRepo := fun _ => Js.Returned tenRuns;
     getWorkflowRunUsage := fun i =>
       if (i <=? 4)%Z then Js.Returned oneMinuteUsage else Js.Thrown notFound;
     listJobsForWorkflowRun := fun i =>
       if (i <=? 7)%Z then Js.Returned [twoMinuteJob] else Js.Thrown notFound |}.

(** A repository whose single run reports 7 500 000 ms of Linux usage: 125
    minutes, costing exactly 1.00. *)
Definition dollarOctokit : Octokit :=
  {| listWorkflowRunsForRepo := fun _ => Js.Returned [ {| id := 1 |} ];
     getWorkflowRunUsage := fun _ =>
       Js.Returned {| billable := Some {[ "UBUNTU"%string := {| total_ms := 7500000 |} ]} |};
     listJobsForWorkflowRun := fun _ => Js.Thrown notFound |}.

(** A repository whose single run reports the given usage payload and whose
    job listing is unavailable. *)
Definition usageOctokit (timing : Timing) : Octokit :=
  {| listWorkflowRunsForRepo := fun _ => Js.Returned [ {| id := 1 |} ];
     getWorkflowRunUsage := fun _ => Js.Returned timing;
     listJobsForWorkflowRun := fun _ => Js.Thrown notFound |}.

(** The job fetch of a run fails: the authoritative branch threw, the
    fallback was entered, and the listing of the jobs threw in turn. *)
Definition jobFetchFails (octokit : Octokit) (run : Run) : Prop :=
  (exists e, costFromUsage octokit run = Js.Thrown e) /\
  (exists e, listJobsForWorkflowRun octokit (id run) = Js.Thrown e).

(** [x] shows as [shown] once rounded to four decimals. *)
Definition rounds_to4 (x shown : Q) : Prop :=
  shown - 0.00005 <= x /\ x < shown + 0.00005.

(** ** Repository strings ([github-api.js], and the slug test of the routes) *)

Module GithubApi.

(** The longest slash-free prefix of [s], as the greedy group [[^/]+] takes
    it, and what follows it. *)
Fixpoint untilSlash (s : string) : string * string :=
  match s with
  | EmptyString => (EmptyString, EmptyString)
  | String c s' =>
      if Ascii.eqb c "/" then (EmptyString, s)
      else let (group, rest) := untilSlash s' in (String c group, rest)
  end.

(** [s.match(/^([^/]+)\/([^/]+)$/)]: the two groups, or [None] for [null].
    Neither group can hold a slash, so the first slash of [s] is the only
    place where the literal [\/] can match. *)
Definition matchOwnerRepo (s : string) : option (string * string) :=
  let (group1, rest) := untilSlash s in
  match group1, rest with
  | String _ _, String _ rest' =>
      let (group2, tail) := untilSlash rest' in
      match group2, tail with
      | String _ _, EmptyString => Some (group1, group2)
      | _, _ => None
      end
  | _, _ => None
  end.

Record Repository : Type := { owner : string; repo : string }.

(** [parseRepository(repoString)] *)
Definition parseRepository (repoString : string) : Js.outcome Repository :=
  match matchOwnerRepo repoString with
  | Some (o, r) => Js.Returned {| owner := o; repo := r |}
  | None => Js.Thrown (Js.Error "Invalid repository format. Use: owner/repo")
  end.

End GithubApi.

(** [s] holds no slash. *)
Definition slashFree (s : string) : Prop := ~ occurs_in "/" s.

(** ** The durable workflow ([ploy.ts]) *)

(** The object literal [result] of the workflow, built from its input, the
    number of runs and the loop variables. *)
Definition workflowOutput (slug owner repo : string) (days : Q)
    (runs : nat) (t : Totals) : CalculationResult :=
  let monthlyMultiplier := Js.div 30 days in
  let yearlyMultiplier := Js.div 365 days in
  {| slug := slug;
     owner := owner;
     repo := repo;
     daysAnalyzed := days;
     totalRuns := runs;
     analyzedRuns := analyzed t;
     linuxMinutes := totalLinuxMinutes t;
     windowsMinutes := totalWindowsMinutes t;
     macosMinutes := totalMacOSMinutes t;
     actualCost := totalCost t;
     monthlyCost := Js.mul (totalCost t) monthlyMultiplier;
     yearlyCost := Js.mul (totalCost t) yearlyMultiplier |}.

Module Ploy.

Record WorkflowInput : Type :=
  { owner : string; repo : string; slug : string; days : Q }.

Definition batchSize : nat := 10.

(** The callback of the step [process-batch-k]: the costs of the runs of the
    batch that could be computed, in the order of the runs. *)
Definition processBatch (octokit : Octokit) (batch : list Run) : list CostResult :=
  fold_left
    (fun results run =>
       match runCost octokit run with
       | Js.Returned cost => results ++ [cost]
       | Js.Thrown _ => results
       end)
    batch [].

(** The loop [for (let i = 0; i < allRuns.length; i += batchSize)], with
    [batch = allRuns.slice(i, i + batchSize)]; [fuel] bounds the number of
    iterations. *)
Fixpoint batchLoop (octokit : Octokit) (allRuns : list Run) (fuel i : nat)
    (t : Totals) : Totals :=
  match fuel with
  | O => t
  | S fuel' =>
      if (i <? length allRuns)%nat then
        let batch := firstn batchSize (skipn i allRuns) in
        let batchResults := processBatch octokit batch in
        batchLoop octokit allRuns fuel' (i + batchSize)
          (fold_left addCost batchResults t)
      else t
  end.

(** The workflow [calculate_repo_cost], up to the result it hands to the step
    [save-results]; a step runs its callback. *)
Definition calculate_repo_cost (octokit : Octokit) (input : WorkflowInput)
    : Js.outcome CalculationResult :=
  allRuns ← listWorkflowRunsForRepo octokit (days input);
  let t := batchLoop octokit allRuns (length allRuns) 0 noTotals in
  mret (workflowOutput (slug input) (owner input) (repo input) (days input)
          (length allRuns) t).

End Ploy.

(** ** The command-line tool ([main]) *)

Module Cli.

(** The functions of [github-api.js] the tool calls, for the repository named
    on the command line.  [getWorkflowRuns] receives the day window that makes
    the date filter, if any. *)
Record Client : Type :=
  { getWorkflowRuns : option Q -> Js.outcome (list Run);
    getWorkflowRunTiming : Z -> Js.outcome Timing;
    getWorkflowRunJobs : Z -> Js.outcome (list Job) }.

(** [days ? x : null] and [days || 7]: [days] is falsy when the option is
    absent, when [parseInt] gave NaN (both [None]) and when it is 0. *)
Definition truthy (days : option Q) : option Q :=
  match days with
  | Some d => if Qeq_bool d 0 then None else Some d
  | None => None
  end.

Definition actualDaysOf (days : option Q) : Q := default 7 (truthy days).

(** The inner [try] block after the fetch: [calculateCost], dropped when
    [cost.total === 0]. *)
Definition costFromTiming (timing : Timing) : Js.outcome CostResult :=
  let cost := calculateCost timing in
  if cliFallsBack timing
  then Js.Thrown (Js.Error "No billable data, falling back to jobs")
  else Js.Returned cost.

Definition runCost (client : Client) (run : Run) : Js.outcome CostResult :=
  Js.try_catch
    (timing ← getWorkflowRunTiming client (id run); costFromTiming timing)
    (fun _ => jobs ← getWorkflowRunJobs client (id run);
              mret (calculateCostFromJobs jobs)).

(** One iteration of the loop over the runs; [analyzed] is [successCount]. *)
Definition processRun (client : Client) (t : Totals) (run : Run) : Totals :=
  match runCost client run with
  | Js.Returned c => addCost t c
  | Js.Thrown _ => t
  end.

(** What the summary prints. *)
Record Summary : Type :=
  { actualDays : Q;
    successCount : nat;
    runsLength : nat;
    totals : Totals;
    monthlyCost : Js.number;
    yearlyCost : Js.number;
    monthlyLinux : Js.number;
    monthlyWindows : Js.number;
    monthlyMacOS : Js.number;
    yearlyLinux : Js.number;
    yearlyWindows : Js.number;
    yearlyMacOS : Js.number }.

(** How [main] ends: [process.exit(1)] after printing [Error: message],
    [process.exit(0)] after "No completed workflow runs found.", or the
    summary. *)
Inductive Ending : Type :=
| ExitFailure (message : string)
| ExitNoRuns
| Printed (s : Summary).

Definition summarize (days : option Q) (runs : list Run) (t : Totals) : Summary :=
  let actualDays := actualDaysOf days in
  let monthlyMultiplier := Js.div 30 actualDays in
  let yearlyMultiplier := Js.div 365 actualDays in
  {| actualDays := actualDays;
     successCount := analyzed t;
     runsLength := length runs;
     totals := t;
     monthlyCost := Js.mul (totalCost t) monthlyMultiplier;
     yearlyCost := Js.mul (totalCost t) yearlyMultiplier;
     monthlyLinux := Js.mul (totalLinuxMinutes t) monthlyMultiplier;
     monthlyWindows := Js.mul (totalWindowsMinutes t) monthlyMultiplier;
     monthlyMacOS := Js.mul (totalMacOSMinutes t) monthlyMultiplier;
     yearlyLinux := Js.mul (totalLinuxMinutes t) yearlyMultiplier;
     yearlyWindows := Js.mul (totalWindowsMinutes t) yearlyMultiplier;
     yearlyMacOS := Js.mul (totalMacOSMinutes t) yearlyMultiplier |}.

(** [main] for the command line [<repoString> [--days <days>]]. *)
Definition main (client : Client) (repoString : string) (days : option Q) : Ending :=
  match GithubApi.parseRepository repoString with
  | Js.Thrown (Js.Error message) => ExitFailure message
  | Js.Returned _ =>
      match getWorkflowRuns client (truthy days) with
      | Js.Thrown (Js.Error message) => ExitFailure message
      | Js.Returned runs =>
          if (length runs =? 0)%nat then ExitNoRuns
          else Printed (summarize days runs (fold_left (processRun client) runs noTotals))
      end
  end.

End Cli.

(** A usage payload as the API documents it: entries only under the three
    class keys, none with a negative duration. *)
Definition wellFormedUsage (timing : Timing) : Prop :=
  forall k u, default ∅ (billable timing) !! k = Some u ->
              classKey k /\ 0 <= total_ms u.

(** The command-line client that reaches the ten-run repository. *)
Definition demoClient : Cli.Client :=
  {| Cli.getWorkflowRuns := fun _ => Js.Returned tenRuns;
     Cli.getWorkflowRunTiming := getWorkflowRunUsage demoOctokit;
     Cli.getWorkflowRunJobs := listJobsForWorkflowRun demoOctokit |}.

(** ** Vocabulary for the algebra of the loops *)

(** What a run adds to a total: the chosen figure of its cost, or nothing
    when the run is lost. *)
Definition runShare (figure : CostResult -> Q) (octokit : Octokit) (run : Run) : Q :=
  match runCost octokit run with
  | Js.Returned c => figure c
  | Js.Thrown _ => 0
  end.

(** The stronger of two classes, macOS over Windows over Linux. *)
Definition strongerOS (a b : RunnerOS) : RunnerOS :=
  match a, b with
  | MACOS, _ | _, MACOS => MACOS
  | WINDOWS, _ | _, WINDOWS => WINDOWS
  | UBUNTU, UBUNTU => UBUNTU
  end.

(** A job that did not end before it started. *)
Definition orderedJob (job : Job) : Prop :=
  forall startTime endTime,
    started_at job = Some startTime -> completed_at job = Some endTime ->
    (startTime <= endTime)%Z.

(** An API that reports no negative usage and no job ending before it
    starts. *)
Definition nonNegativeApi (octokit : Octokit) : Prop :=
  (forall i timing os u,
      getWorkflowRunUsage octokit i = Js.Returned timing ->
      default ∅ (billable timing) !! key os = Some u -> 0 <= total_ms u) /\
  (forall i jobs,
      listJobsForWorkflowRun octokit i = Js.Returned jobs -> Forall orderedJob jobs).

(** ** The web routes ([api/calculate] and [api/status]) *)

Module Web.

(** A row of the table [repo_costs], with the columns the routes read or
    write ([slug] is UNIQUE; [updated_at] is in seconds).  The column
    [execution_id], which the routes use, is taken to default to NULL like
    the other columns the INSERT does not name. *)
Record Row : Type :=
  { owner : string;
    repo : string;
    slug : string;
    status : string;
    execution_id : option string;
    days_analyzed : option Q;
    total_runs : option nat;
    analyzed_runs : option nat;
    linux_minutes : option Q;
    windows_minutes : option Q;
    macos_minutes : option Q;
    actual_cost : option Q;
    monthly_cost : option Js.number;
    yearly_cost : option Js.number;
    error_message : option string;
    updated_at : Z }.

(** The workflow binding [env.COST_CALCULATOR]. *)
Record Workflow : Type :=
  { trigger : Ploy.WorkflowInput -> Js.outcome string;
    getExecution : string -> Js.outcome string }.

Record Env : Type :=
  { octokit : Octokit;
    COST_CALCULATOR : option Workflow }.

(** The row [INSERT INTO repo_costs (owner, repo, slug, status, updated_at)]
    creates; the other columns take the defaults of the table. *)
Definition newRow (o r s : string) (now : Z) : Row :=
  {| owner := o; repo := r; slug := s; status := "pending";
     execution_id := None;
     days_analyzed := None; total_runs := None; analyzed_runs := None;
     linux_minutes := Some 0; windows_minutes := Some 0; macos_minutes := Some 0;
     actual_cost := Some 0;
     monthly_cost := Some (Js.Finite 0); yearly_cost := Some (Js.Finite 0);
     error_message := None;
     updated_at := now |}.

(** [.. ON CONFLICT(slug) DO UPDATE SET status = 'pending', updated_at = ..] *)
Definition setPending (now : Z) (row : Row) : Row :=
  {| owner := owner row; repo := repo row; slug := slug row;
     status := "pending";
     execution_id := execution_id row;
     days_analyzed := days_analyzed row; total_runs := total_runs row;
     analyzed_runs := analyzed_runs row;
     linux_minutes := linux_minutes row; windows_minutes := windows_minutes row;
     macos_minutes := macos_minutes row;
     actual_cost := actual_cost row;
     monthly_cost := monthly_cost row; yearly_cost := yearly_cost row;
     error_message := error_message row;
     updated_at := now |}.

Definition insertPending (o r s : string) (now : Z) (db : gmap string Row)
    : gmap string Row :=
  match db !! s with
  | Some row => <[s := setPending now row]> db
  | None => <[s := newRow o r s now]> db
  end.

(** [UPDATE repo_costs SET execution_id = ? WHERE slug = ?] *)
Definition setExecution (executionId : string) (row : Row) : Row :=
  {| owner := owner row; repo := repo row; slug := slug row;
     status := status row;
     execution_id := Some executionId;
     days_analyzed := days_analyzed row; total_runs := total_runs row;
     analyzed_runs := analyzed_runs row;
     linux_minutes := linux_minutes row; windows_minutes := windows_minutes row;
     macos_minutes := macos_minutes row;
     actual_cost := actual_cost row;
     monthly_cost := monthly_cost row; yearly_cost := yearly_cost row;
     error_message := error_message row;
     updated_at := updated_at row |}.

(** [UPDATE repo_costs SET status = 'completed', days_analyzed = ?, ..,
    error_message = NULL, updated_at = CURRENT_TIMESTAMP WHERE slug = ?] *)
Definition setCompleted (result : CalculationResult) (now : Z) (row : Row) : Row :=
  {| owner := owner row; repo := repo row; slug := slug row;
     status := "completed";
     execution_id := execution_id row;
     days_analyzed := Some (daysAnalyzed result);
     total_runs := Some (totalRuns result);
     analyzed_runs := Some (analyzedRuns result);
     linux_minutes := Some (linuxMinutes result);
     windows_minutes := Some (windowsMinutes result);
     macos_minutes := Some (macosMinutes result);
     actual_cost := Some (actualCost result);
     monthly_cost := Some (monthlyCost result);
     yearly_cost := Some (yearlyCost result);
     error_message := None;
     updated_at := now |}.

(** [UPDATE repo_costs SET status = 'error', error_message = ?,
    updated_at = CURRENT_TIMESTAMP WHERE slug = ?] *)
Definition setError (message : string) (now : Z) (row : Row) : Row :=
  {| owner := owner row; repo := repo row; slug := slug row;
     status := "error";
     execution_id := execution_id row;
     days_analyzed := days_analyzed row; total_runs := total_runs row;
     analyzed_runs := analyzed_runs row;
     linux_minutes := linux_minutes row; windows_minutes := windows_minutes row;
     macos_minutes := macos_minutes row;
     actual_cost := actual_cost row;
     monthly_cost := monthly_cost row; yearly_cost := yearly_cost row;
     error_message := Some message;
     updated_at := now |}.

(** [.. WHERE slug = ? AND status = 'completed'
       AND datetime(updated_at) > datetime('now', '-1 hour')] *)
Definition recentCompleted (s : string) (now : Z) (db : gmap string Row) : option Row :=
  match db !! s with
  | Some row =>
      if String.eqb (status row) "completed" && (now - 3600 <? updated_at row)%Z
      then Some row else None
  | None => None
  end.

(** [.. WHERE slug = ? AND status = 'pending'] *)
Definition pendingRow (s : string) (db : gmap string Row) : option Row :=
  match db !! s with
  | Some row => if String.eqb (status row) "pending" then Some row else None
  | None => None
  end.

(** What [POST /api/calculate] answers. *)
Inductive Response : Type :=
| BadRequest (error : string)
| Cached
| Pending (executionId : option string)
| Completed
| Failed (error : string)
| InternalError.

Section Routes.

(** [String(calcError)], the text of a caught exception. *)
Variable errorText : Js.error -> string.

(** [POST /api/calculate].  [body] is the outcome of [request.json()] and the
    [slug] field it holds when that is a string; [now] is the time of the
    request and [later] the time at which the direct calculation ends.  The
    statements on the table are taken to succeed. *)
Definition POST (env : Env) (now later : Z) (body : Js.outcome (option string))
    (db : gmap string Row) : gmap string Row * Response :=
  match body with
  | Js.Thrown _ => (db, InternalError)
  | Js.Returned None => (db, BadRequest "Invalid slug")
  | Js.Returned (Some EmptyString) => (db, BadRequest "Invalid slug")
  | Js.Returned (Some s) =>
      match GithubApi.matchOwnerRepo s with
      | None => (db, BadRequest "Invalid format. Use: owner/repo")
      | Some (o, r) =>
          match recentCompleted s now db with
          | Some _ => (db, Cached)
          | None =>
              match pendingRow s db with
              | Some inProgress => (db, Pending (execution_id inProgress))
              | None =>
                  let db1 := insertPending o r s now db in
                  match COST_CALCULATOR env with
                  | Some workflow =>
                      match trigger workflow
                              {| Ploy.owner := o; Ploy.repo := r; Ploy.slug := s;
                                 Ploy.days := 7 |} with
                      | Js.Returned executionId =>
                          (alter (setExecution executionId) s db1,
                           Pending (Some executionId))
                      | Js.Thrown _ => (db1, InternalError)
                      end
                  | None =>
                      match calculateRepoCost (octokit env) o r 7 with
                      | Js.Returned result =>
                          (alter (setCompleted result later) s db1, Completed)
                      | Js.Thrown calcError =>
                          (alter (setError (errorText calcError) later) s db1,
                           Failed (errorText calcError))
                      end
                  end
              end
          end
      end
  end.

End Routes.

(** The [data] object of a status answer. *)
Record StatusData : Type :=
  { data_slug : string;
    data_owner : string;
    data_repo : string;
    daysAnalyzed : option Q;
    totalRuns : option nat;
    analyzedRuns : option nat;
    linuxMinutes : option Q;
    windowsMinutes : option Q;
    macosMinutes : option Q;
    actualCost : option Q;
    monthlyCost : option Js.number;
    yearlyCost : option Js.number;
    updatedAt : Z }.

Definition dataOf (result : Row) : StatusData :=
  {| data_slug := slug result;
     data_owner := owner result;
     data_repo := repo result;
     daysAnalyzed := days_analyzed result;
     totalRuns := total_runs result;
     analyzedRuns := analyzed_runs result;
     linuxMinutes := linux_minutes result;
     windowsMinutes := windows_minutes result;
     macosMinutes := macos_minutes result;
     actualCost := actual_cost result;
     monthlyCost := monthly_cost result;
     yearlyCost := yearly_cost result;
     updatedAt := updated_at result |}.

(** What [GET /api/status/...] answers: 404 [{status: "not_found"}], or the
    status object. *)
Record StatusBody : Type :=
  { body_status : string;
    data : option StatusData;
    error : option string;
    executionId : option string;
    workflowStatus : option string }.

Inductive StatusResponse : Type :=
| NotFound
| Status (body : StatusBody).

(** [x || null] on a nullable string. *)
Definition orNull (x : option string) : option string :=
  match x with
  | Some EmptyString => None
  | _ => x
  end.

(** The answer built from the row when the workflow is not consulted. *)
Definition rowStatus (result : Row) : StatusBody :=
  {| body_status := status result;
     data := if String.eqb (status result) "completed"
             then Some (dataOf result) else None;
     error := if String.eqb (status result) "error"
              then error_message result else None;
     executionId := orNull (execution_id result);
     workflowStatus := None |}.

(** [env.COST_CALCULATOR.getExecution(id)]; without the binding the call
    throws. *)
Definition execution (env : Env) (executionId : string) : Js.outcome string :=
  match COST_CALCULATOR env with
  | Some workflow => getExecution workflow executionId
  | None => Js.Thrown (Js.Error "Cannot read properties of undefined")
  end.

(** [GET /api/status/[...slug]], at time [now]. *)
Definition GET (env : Env) (now : Z) (slugParts : list string)
    (db : gmap string Row) : gmap string Row * StatusResponse :=
  let s := String.concat "/" slugParts in
  match db !! s with
  | None => (db, NotFound)
  | Some result =>
      match (if String.eqb (status result) "pending"
             then orNull (execution_id result) else None) with
      | Some executionId =>
          match execution env executionId with
          | Js.Returned executionStatus =>
              if String.eqb executionStatus "failed" then
                (alter (setError "Workflow execution failed" now) s db,
                 Status {| body_status := "error"; data := None;
                           error := Some "Workflow execution failed"%string;
                           executionId := Some executionId;
                           workflowStatus := None |})
              else
                (db, Status {| body_status := "pending"; data := None; error := None;
                               executionId := Some executionId;
                               workflowStatus := Some executionStatus |})
          | Js.Thrown _ => (db, Status (rowStatus result))
          end
      | None => (db, Status (rowStatus result))
      end
  end.

End Web.

(** An environment without the workflow binding, on the ten-run repository,
    and one whose workflow cannot be triggered. *)
Definition directEnv : Web.Env :=
  {| Web.octokit := demoOctokit; Web.COST_CALCULATOR := None |}.


(** [String(error)] for an [Error]. *)
Definition errorString (e : Js.error) : string :=
  match e with
  | Js.Error EmptyString => "Error"
  | Js.Error message => "Error: " ++ message
  end.

(** ** The cost model in binary64 *)

(** A JavaScript number is an IEEE 754 binary64 value, and every [/], [*],
    [+] and [-] of the cost model rounds its result to the nearest one.
    The module below repeats the cost model operation for operation over
    Rocq's primitive floats, which are these values with these operations;
    it is the model to consult wherever a property depends on how a
    quotient, a product or a running sum is rounded.  Equality of floats is
    Leibniz equality (the same value, bit for bit, with a single NaN);
    [PrimFloat.eqb] is JavaScript's [===] on numbers. *)
Module F64.
Import PrimFloat.
Local Open Scope float_scope.

Module PRICING.
Definition LINUX : float := 0.008.
Definition WINDOWS : float := 0.016.
Definition MACOS : float := 0.08.
End PRICING.

Definition rate (os : RunnerOS) : float :=
  match os with
  | UBUNTU => PRICING.LINUX
  | WINDOWS => PRICING.WINDOWS
  | MACOS => PRICING.MACOS
  end.

Record OsCost : Type := { minutes : float; cost : float }.

Record CostBreakdown : Type :=
  { bUBUNTU : OsCost; bWINDOWS : OsCost; bMACOS : OsCost }.

Record CostResult : Type :=
  { linux : float; windows : float; macos : float; total : float;
    breakdown : CostBreakdown }.

Definition bucket (os : RunnerOS) (b : CostBreakdown) : OsCost :=
  match os with
  | UBUNTU => bUBUNTU b
  | WINDOWS => bWINDOWS b
  | MACOS => bMACOS b
  end.

Record OsUsage : Type := { total_ms : float }.

Record Timing : Type := { billable : option (gmap string OsUsage) }.

Definition zeroCost : OsCost := {| minutes := 0; cost := 0 |}.

(** The block [if (billable.K) { minutes = billable.K.total_ms / 1000 / 60; ... }]
    for one class: two divisions and one product, each rounded. *)
Definition classCost (b : gmap string OsUsage) (os : RunnerOS) : OsCost :=
  match b !! key os with
  | Some u =>
      let minutes := total_ms u / 1000 / 60 in
      {| minutes := minutes; cost := minutes * rate os |}
  | None => zeroCost
  end.

Definition costOfBillable (b : gmap string OsUsage) : CostResult :=
  let u := classCost b UBUNTU in
  let w := classCost b WINDOWS in
  let m := classCost b MACOS in
  {| linux := cost u; windows := cost w; macos := cost m;
     total := cost u + cost w + cost m;
     breakdown := {| bUBUNTU := u; bWINDOWS := w; bMACOS := m |} |}.

(** [calculateCost(timing)] *)
Definition calculateCost (timing : Timing) : CostResult :=
  costOfBillable (default ∅ (billable timing)).

(** The scan that sets [hasBillableData]: some entry has [total_ms > 0]. *)
Definition hasBillableData (b : gmap string OsUsage) : bool :=
  existsb (fun kv => 0 <? total_ms kv.2) (map_to_list b).

(** The authoritative branch of [calculateRepoCost]. *)
Definition costFromTiming (timing : Timing) : Js.outcome CostResult :=
  let billable := default ∅ (billable timing) in
  if hasBillableData billable
  then Js.Returned (costOfBillable billable)
  else Js.Thrown (Js.Error "No billable data").

(** The number [getTime()] returns for a timestamp.  The time value of a
    valid date is an integer of magnitude at most 8.64e15, below 2^53, so it
    is a binary64 value and the conversion is exact. *)
Definition of_Z (z : Z) : float :=
  match z with
  | Z0 => 0
  | Zpos _ => of_uint63 (Uint63.of_Z z)
  | Zneg p => - of_uint63 (Uint63.of_Z (Zpos p))
  end.

Definition emptyCosts : CostResult :=
  {| linux := 0; windows := 0; macos := 0; total := 0;
     breakdown := {| bUBUNTU := zeroCost; bWINDOWS := zeroCost; bMACOS := zeroCost |} |}.

(** [costs.breakdown[os].minutes += minutes; costs.breakdown[os].cost += minutes * r] *)
Definition addTo (c : OsCost) (m : float) (r : float) : OsCost :=
  {| minutes := minutes c + m; cost := cost c + m * r |}.

(** One iteration of the loop of [calculateCostFromJobs]. *)
Definition addJob (costs : CostResult) (job : Job) : CostResult :=
  match started_at job, completed_at job with
  | Some startTime, Some endTime =>
      let durationMs := of_Z endTime - of_Z startTime in
      let minutes := durationMs / 1000 / 60 in
      let b := breakdown costs in
      match detectRunnerOS (default [] (labels job)) with
      | UBUNTU =>
          {| linux := linux costs + minutes * PRICING.LINUX;
             windows := windows costs; macos := macos costs; total := total costs;
             breakdown := {| bUBUNTU := addTo (bUBUNTU b) minutes PRICING.LINUX;
                             bWINDOWS := bWINDOWS b; bMACOS := bMACOS b |} |}
      | WINDOWS =>
          {| linux := linux costs;
             windows := windows costs + minutes * PRICING.WINDOWS;
             macos := macos costs; total := total costs;
             breakdown := {| bUBUNTU := bUBUNTU b;
                             bWINDOWS := addTo (bWINDOWS b) minutes PRICING.WINDOWS;
                             bMACOS := bMACOS b |} |}
      | MACOS =>
          {| linux := linux costs; windows := windows costs;
             macos := macos costs + minutes * PRICING.MACOS; total := total costs;
             breakdown := {| bUBUNTU := bUBUNTU b; bWINDOWS := bWINDOWS b;
                             bMACOS := addTo (bMACOS b) minutes PRICING.MACOS |} |}
      end
  | _, _ => costs
  end.

Definition withTotal (costs : CostResult) : CostResult :=
  {| linux := linux costs; windows := windows costs; macos := macos costs;
     total := linux costs + windows costs + macos costs;
     breakdown := breakdown costs |}.

(** [calculateCostFromJobs(jobs)] *)
Definition calculateCostFromJobs (jobs : list Job) : CostResult :=
  withTotal (fold_left addJob jobs emptyCosts).

(** The invariant of a cost breakdown, read over binary64: the total is the
    sum of the three per-class costs (added in the order the code adds
    them), and each per-class cost is that class's minutes times its rate. *)
Definition breakdown_invariant (r : CostResult) : Prop :=
  total r = cost (bUBUNTU (breakdown r)) + cost (bWINDOWS (breakdown r))
            + cost (bMACOS (breakdown r))
  /\ forall os, cost (bucket os (breakdown r))
                = minutes (bucket os (breakdown r)) * rate os.

Definition classTotal (os : RunnerOS) (r : CostResult) : float :=
  match os with
  | UBUNTU => linux r
  | WINDOWS => windows r
  | MACOS => macos r
  end.

(** The minutes of a job whose two timestamps are present. *)
Definition jobMinutes (job : Job) : option float :=
  match started_at job, completed_at job with
  | Some startTime, Some endTime => Some ((of_Z endTime - of_Z startTime) / 1000 / 60)
  | _, _ => None
  end.

(** The minutes of the timed jobs billed to class [os], in list order. *)
Fixpoint classMinutes (os : RunnerOS) (jobs : list Job) : list float :=
  match jobs with
  | [] => []
  | job :: rest =>
      match jobMinutes job with
      | Some m =>
          if decide (detectRunnerOS (default [] (labels job)) = os)
          then m :: classMinutes os rest
          else classMinutes os rest
      | None => classMinutes os rest
      end
  end.

(** The value of [acc] after [acc += x] for each [x] of the list in turn. *)
Definition runningSum (acc : float) (l : list float) : float :=
  fold_left add l acc.

(** [{UBUNTU: {total_ms: 43}}] *)
Definition shortUsage : Timing :=
  {| billable := Some {[ "UBUNTU"%string := {| total_ms := 43 |} ]} |}.

End F64.

(** A job that ran [ms] milliseconds on a runner with the given label. *)
Definition timedJob (label : string) (ms : Z) : Job :=
  {| started_at := Some 1700000000000%Z;
     completed_at := Some (1700000000000 + ms)%Z;
     labels := Some [label] |}.

(** Three Linux jobs of eleven seconds each. *)
Definition elevenSecondJobs : list Job :=
  [timedJob "ubuntu-latest" 11000; timedJob "ubuntu-latest" 11000;
   timedJob "ubuntu-latest" 11000].

(** Linux jobs of 7, 11 and 13 seconds. *)
Definition unevenJobs : list Job :=
  [timedJob "ubuntu-latest" 7000; timedJob "ubuntu-latest" 11000;
   timedJob "ubuntu-latest" 13000].

(** * Properties *)

(** ** JavaScript helpers *)

(** The boolean comparisons and [includes] decide the relations they stand
    for. *)

Lemma lt_spec (a b : Q) : Js.lt a b = true <-> a < b.
Proof.
  unfold Js.lt. rewrite negb_true_iff.
  split.
  - intros H. apply Qnot_le_lt. intros Hle. apply Qle_bool_iff in Hle. congruence.
  - intros H. destruct (Qle_bool b a) eqn:E; [|reflexivity].
    apply Qle_bool_iff in E. exfalso. apply (Qlt_not_le _ _ H E).
Qed.

Lemma gt_spec (a b : Q) : Js.gt a b = true <-> b < a.
Proof. apply lt_spec. Qed.

Lemma prefix_spec (n s : string) :
  String.prefix n s = true <-> exists b, s = (n +:+ b)%string.
Proof.
  revert s. induction n as [|c n IH]; intros s.
  - split; [intros _; exists s; reflexivity | intros _; destruct s; reflexivity ].
  - destruct s as [|d s]; simpl.
    + split; [discriminate | intros [b Hb]; discriminate].
    + destruct (ascii_dec c d) as [->|Hne].
      * rewrite IH. split; intros [b Hb]; exists b.
        -- now rewrite Hb.
        -- now inversion Hb.
      * split; [discriminate|]. intros [b Hb]. inversion Hb. congruence.
Qed.

Lemma includes_spec (s needle : string) :
  Js.includes s needle = true <-> occurs_in needle s.
Proof.
  unfold occurs_in. induction s as [|c s IH].
  - cbn [Js.includes]. rewrite orb_false_r, prefix_spec. split.
    + intros [b Hb]. exists EmptyString, b. exact Hb.
    + intros [a [b Hb]]. destruct a; [exists b; exact Hb | discriminate].
  - cbn [Js.includes]. rewrite orb_true_iff, prefix_spec, IH. split.
    + intros [[b Hb] | [a [b Hb]]].
      * exists EmptyString, b. exact Hb.
      * exists (String c a), b. simpl. now rewrite Hb.
    + intros [a [b Hb]]. destruct a as [|c' a].
      * left. exists b. exact Hb.
      * right. inversion Hb. exists a, b. reflexivity.
Qed.

Lemma hasBillableData_spec (b : gmap string OsUsage) :
  hasBillableData b = true <-> exists k u, b !! k = Some u /\ 0 < total_ms u.
Proof.
  unfold hasBillableData. rewrite existsb_exists. split.
  - intros [[k u] [Hin Hgt]]. exists k, u. split.
    + apply elem_of_map_to_list. apply list_elem_of_In. exact Hin.
    + apply gt_spec. exact Hgt.
  - intros (k & u & Hk & Hgt). exists (k, u). split.
    + apply list_elem_of_In. apply elem_of_map_to_list. exact Hk.
    + apply gt_spec. exact Hgt.
Qed.

Lemma hasBillableData_false (b : gmap string OsUsage) :
  hasBillableData b = false <-> noPositiveDuration b.
Proof.
  unfold noPositiveDuration. split.
  - intros H k u Hk. apply Qnot_lt_le. intros Hgt.
    assert (hasBillableData b = true) as Ht
      by (apply hasBillableData_spec; exists k, u; auto).
    congruence.
  - intros H. destruct (hasBillableData b) eqn:E; [|reflexivity].
    apply hasBillableData_spec in E. destruct E as (k & u & Hk & Hgt).
    specialize (H k u Hk). exfalso. apply (Qlt_not_le _ _ Hgt H).
Qed.

Lemma classCost_present (b : gmap string OsUsage) (os : RunnerOS) (u : OsUsage) :
  b !! key os = Some u ->
  minutes (classCost b os) == total_ms u / 60000 /\
  cost (classCost b os) == total_ms u / 60000 * rate os.
Proof.
  intros H. unfold classCost. rewrite H. cbn [minutes cost].
  split; field.
Qed.

Lemma classCost_absent (b : gmap string OsUsage) (os : RunnerOS) :
  b !! key os = None -> classCost b os = zeroCost.
Proof. intros H. unfold classCost. now rewrite H. Qed.

Lemma bucket_costOfBillable (b : gmap string OsUsage) (os : RunnerOS) :
  bucket os (breakdown (costOfBillable b)) = classCost b os.
Proof. destruct os; reflexivity. Qed.

Lemma classCost_invariant (b : gmap string OsUsage) (os : RunnerOS) :
  cost (classCost b os) == minutes (classCost b os) * rate os.
Proof.
  unfold classCost. destruct (b !! key os); cbn [minutes cost zeroCost]; ring.
Qed.

Lemma costOfBillable_invariant (b : gmap string OsUsage) :
  breakdown_invariant (costOfBillable b).
Proof.
  split.
  - reflexivity.
  - intros os. rewrite bucket_costOfBillable. apply classCost_invariant.
Qed.

(** ** The job loop *)

Ltac job_cases job os :=
  unfold addJob, contribution, jobMinutes, jobOS;
  destruct (started_at job) as [startTime|];
  destruct (completed_at job) as [endTime|];
  try (destruct (detectRunnerOS (default [] (labels job))));
  destruct os; cbn -[Qplus Qmult Qdiv inject_Z];
  repeat case_decide; try congruence; try reflexivity.

Lemma addJob_minutes (acc : CostResult) (job : Job) (os : RunnerOS) :
  minutes (bucket os (breakdown (addJob acc job)))
  == minutes (bucket os (breakdown acc)) + contribution os job.
Proof. job_cases job os; field. Qed.

Lemma addJob_cost (acc : CostResult) (job : Job) (os : RunnerOS) :
  cost (bucket os (breakdown (addJob acc job)))
  == cost (bucket os (breakdown acc)) + contribution os job * rate os.
Proof. job_cases job os; unfold rate; field. Qed.

Lemma addJob_classTotal (acc : CostResult) (job : Job) (os : RunnerOS) :
  classTotal os (addJob acc job)
  == classTotal os acc + contribution os job * rate os.
Proof. job_cases job os; unfold rate; field. Qed.

Lemma fold_addJob_minutes (jobs : list Job) (acc : CostResult) (os : RunnerOS) :
  minutes (bucket os (breakdown (fold_left addJob jobs acc)))
  == minutes (bucket os (breakdown acc)) + sumQ (map (contribution os) jobs).
Proof.
  revert acc. induction jobs as [|job jobs IH]; intros acc; cbn [fold_left map sumQ].
  - ring.
  - rewrite IH, addJob_minutes. ring.
Qed.

Lemma fold_addJob_cost (jobs : list Job) (acc : CostResult) (os : RunnerOS) :
  cost (bucket os (breakdown (fold_left addJob jobs acc)))
  == cost (bucket os (breakdown acc)) + sumQ (map (contribution os) jobs) * rate os.
Proof.
  revert acc. induction jobs as [|job jobs IH]; intros acc; cbn [fold_left map sumQ].
  - ring.
  - rewrite IH, addJob_cost. ring.
Qed.

Lemma fold_addJob_classTotal (jobs : list Job) (acc : CostResult) (os : RunnerOS) :
  classTotal os (fold_left addJob jobs acc)
  == classTotal os acc + sumQ (map (contribution os) jobs) * rate os.
Proof.
  revert acc. induction jobs as [|job jobs IH]; intros acc; cbn [fold_left map sumQ].
  - ring.
  - rewrite IH, addJob_classTotal. ring.
Qed.

(** ** The cost model *)


Lemma rate_positive (os : RunnerOS) : 0 < rate os.
Proof. destruct os; reflexivity. Qed.




Lemma existsb_mentions (needle : string) (labels : list string) :
  existsb (fun l => Js.includes l needle) (map Js.toLowerCase labels) = true
  <-> mentions needle labels.
Proof.
  unfold mentions. rewrite existsb_exists. split.
  - intros [l' [Hin Hinc]]. apply in_map_iff in Hin as [l [<- Hl]].
    exists l. split; [exact Hl | now apply includes_spec].
  - intros [l [Hl Hocc]]. exists (Js.toLowerCase l). split.
    + now apply in_map.
    + now apply includes_spec.
Qed.

Lemma existsb_mentions_mac (labels : list string) :
  existsb (fun l => Js.includes l "macos" || Js.includes l "mac-os")
          (map Js.toLowerCase labels) = true
  <-> mentions "macos" labels \/ mentions "mac-os" labels.
Proof.
  rewrite <- !existsb_mentions, <- orb_true_iff.
  induction labels as [|l labels IH]; cbn [map existsb].
  - reflexivity.
  - rewrite !orb_true_iff in *. tauto.
Qed.

(** C6.  [detectRunnerOS] lower-cases every label and answers MACOS when some
    label contains "macos" or "mac-os", otherwise WINDOWS when some label
    contains "windows", otherwise UBUNTU (Linux).  The macOS test comes first,
    so labels naming both macOS and Windows classify as MACOS; the empty list
    classifies as UBUNTU; the function is total. *)
Theorem C6_detectRunnerOS_first_match (labels : list string) :
  let mac := mentions "macos" labels \/ mentions "mac-os" labels in
  let win := mentions "windows" labels in
  (mac -> detectRunnerOS labels = MACOS) /\
  (~ mac -> win -> detectRunnerOS labels = WINDOWS) /\
  (~ mac -> ~ win -> detectRunnerOS labels = UBUNTU) /\
  (mac -> win -> detectRunnerOS labels = MACOS) /\
  detectRunnerOS [] = UBUNTU /\
  detectRunnerOS ["windows-2022"%string] = WINDOWS /\
  detectRunnerOS ["self-hosted"%string; "macos-14"%string] = MACOS /\
  detectRunnerOS ["ubuntu-latest"%string] = UBUNTU /\
  detectRunnerOS ["Windows-2022"%string; "MacOS-14"%string] = MACOS.
Proof.
  intros mac win.
  assert (Hmac : mac -> detectRunnerOS labels = MACOS).
  { intros H. apply existsb_mentions_mac in H. unfold detectRunnerOS.
    now rewrite H. }
  assert (Hnomac : ~ mac ->
    existsb (fun l => Js.includes l "macos" || Js.includes l "mac-os")
            (map Js.toLowerCase labels) = false).
  { intros H. apply not_true_is_false. intros E. apply H.
    now apply existsb_mentions_mac. }
  repeat split; try reflexivity.
  - exact Hmac.
  - intros Hn Hw. apply existsb_mentions in Hw. unfold detectRunnerOS.
    now rewrite (Hnomac Hn), Hw.
  - intros Hn Hw. unfold detectRunnerOS. rewrite (Hnomac Hn).
    destruct (existsb (fun l => Js.includes l "windows") _) eqn:E; [|reflexivity].
    apply existsb_mentions in E. contradiction.
  - intros H _. now apply Hmac.
Qed.



Lemma contribution_timed (job : Job) (m : Q) (os : RunnerOS) :
  jobMinutes job = Some m ->
  contribution os job = if decide (jobOS job = os) then m else 0.
Proof. intros H. unfold contribution. now rewrite H. Qed.

Lemma jobs_minutes (jobs : list Job) (os : RunnerOS) :
  minutes (bucket os (breakdown (calculateCostFromJobs jobs)))
  == sumQ (map (contribution os) jobs).
Proof.
  unfold calculateCostFromJobs. cbn [withTotal breakdown].
  rewrite fold_addJob_minutes. destruct os; cbn; ring.
Qed.

Lemma jobs_cost (jobs : list Job) (os : RunnerOS) :
  cost (bucket os (breakdown (calculateCostFromJobs jobs)))
  == sumQ (map (contribution os) jobs) * rate os.
Proof.
  unfold calculateCostFromJobs. cbn [withTotal breakdown].
  rewrite fold_addJob_cost. destruct os; cbn; ring.
Qed.

Lemma jobs_total (jobs : list Job) :
  total (calculateCostFromJobs jobs)
  == sumQ (map (contribution UBUNTU) jobs) * rate UBUNTU
     + sumQ (map (contribution WINDOWS) jobs) * rate WINDOWS
     + sumQ (map (contribution MACOS) jobs) * rate MACOS.
Proof.
  unfold calculateCostFromJobs. cbn [withTotal total linux windows macos].
  pose proof (fold_addJob_classTotal jobs emptyCosts UBUNTU) as HU.
  pose proof (fold_addJob_classTotal jobs emptyCosts WINDOWS) as HW.
  pose proof (fold_addJob_classTotal jobs emptyCosts MACOS) as HM.
  cbn [classTotal] in HU, HW, HM. rewrite HU, HW, HM. cbn. ring.
Qed.




Lemma runCost_cases (octokit : Octokit) (run : Run) (r : CostResult) :
  runCost octokit run = Js.Returned r ->
  (exists timing, getWorkflowRunUsage octokit (id run) = Js.Returned timing /\
                  costFromTiming timing = Js.Returned r) \/
  (exists jobs, listJobsForWorkflowRun octokit (id run) = Js.Returned jobs /\
                r = calculateCostFromJobs jobs).
Proof.
  intros Hr. unfold runCost, costFromUsage, costFromJobsOf in Hr.
  destruct (getWorkflowRunUsage octokit (id run)) as [timing|e]; cbn in Hr.
  - destruct (costFromTiming timing) as [c|e] eqn:Ht; cbn in Hr.
    + injection Hr as <-. left. eauto.
    + destruct (listJobsForWorkflowRun octokit (id run)) as [jobs|]; cbn in Hr;
        [|discriminate].
      injection Hr as <-. right. eauto.
  - destruct (listJobsForWorkflowRun octokit (id run)) as [jobs|]; cbn in Hr;
      [|discriminate].
    injection Hr as <-. right. eauto.
Qed.

(** In exact arithmetic every breakdown, whether computed from a usage
    payload or from jobs, has a total equal to the sum of its three
    per-class costs and each per-class cost equal to that class's minutes
    times that class's rate.  (For the numbers the code computes, see the
    binary64 reading, [F64.breakdown_invariant], in the theorems that
    follow.) *)
Lemma exact_breakdown_invariant :
  (forall timing, breakdown_invariant (calculateCost timing)) /\
  (forall timing r, costFromTiming timing = Js.Returned r -> breakdown_invariant r) /\
  (forall jobs, breakdown_invariant (calculateCostFromJobs jobs)) /\
  (forall octokit run r, runCost octokit run = Js.Returned r -> breakdown_invariant r).
Proof.
  assert (Hauth : forall timing r,
             costFromTiming timing = Js.Returned r -> breakdown_invariant r).
  { intros timing r Hr. unfold costFromTiming in Hr.
    destruct (hasBillableData _); [|discriminate].
    injection Hr as <-. apply costOfBillable_invariant. }
  assert (Hjobs : forall jobs, breakdown_invariant (calculateCostFromJobs jobs)).
  { intros jobs. split.
    - rewrite jobs_total.
      rewrite (jobs_cost jobs UBUNTU), (jobs_cost jobs WINDOWS), (jobs_cost jobs MACOS).
      reflexivity.
    - intros os. rewrite jobs_cost, jobs_minutes. reflexivity. }
  split; [|split; [|split]].
  - intros timing. apply costOfBillable_invariant.
  - exact Hauth.
  - exact Hjobs.
  - intros octokit run r Hr.
    destruct (runCost_cases octokit run r Hr)
      as [(timing & _ & Ht) | (jobs & _ & ->)]; [eauto | apply Hjobs].
Qed.

(** In exact arithmetic the cost of [d] milliseconds under class [c],
    [d / 1000 / 60 * rate c], is [(d / 60000) * rate c]: in [calculateCost]
    whatever else the payload holds, as the total of a payload with that
    single entry, and for a single timed job. *)
Lemma exact_cost_is_minutes_times_rate (d : Q) (c : RunnerOS) :
  (forall b : gmap string OsUsage,
      let r := calculateCost {| billable := Some (<[key c := {| total_ms := d |}]> b) |} in
      minutes (bucket c (breakdown r)) == d / 60000 /\
      cost (bucket c (breakdown r)) == d / 60000 * rate c) /\
  total (calculateCost {| billable := Some {[ key c := {| total_ms := d |} ]} |})
  == d / 60000 * rate c /\
  (forall (startTime endTime : Z) (labels0 : option (list string)),
      let job := {| started_at := Some startTime; completed_at := Some endTime;
                    labels := labels0 |} in
      inject_Z (endTime - startTime) == d -> jobOS job = c ->
      cost (bucket c (breakdown (calculateCostFromJobs [job]))) == d / 60000 * rate c /\
      total (calculateCostFromJobs [job]) == d / 60000 * rate c) /\
  rate UBUNTU == 0.008 /\
  rate WINDOWS == 0.016 /\ rate WINDOWS == 2 * rate UBUNTU /\
  rate MACOS == 0.08 /\ rate MACOS == 10 * rate UBUNTU.
Proof.
  split; [|split; [|split]].
  - intros b r. subst r. unfold calculateCost. cbn [billable default].
    rewrite bucket_costOfBillable.
    apply (classCost_present _ c {| total_ms := d |}). apply lookup_insert_eq.
  - unfold calculateCost, costOfBillable. simpl default. cbn [total].
    destruct c; unfold classCost; cbn [key];
      rewrite ?lookup_singleton_eq, ?lookup_singleton_ne by discriminate;
      cbn [minutes cost zeroCost total_ms]; unfold rate; field.
  - intros startTime endTime labels0 job Hd Hc.
    assert (Hm : jobMinutes job = Some (inject_Z (endTime - startTime) / 60000))
      by reflexivity.
    split.
    + rewrite jobs_cost. cbn [map sumQ].
      rewrite (contribution_timed job _ c Hm).
      destruct (decide (jobOS job = c)); [rewrite Hd; ring | contradiction].
    + rewrite jobs_total. cbn [map sumQ].
      rewrite !(contribution_timed job _ _ Hm), Hc.
      destruct c; repeat case_decide; try congruence; rewrite Hd; ring.
  - repeat split; reflexivity.
Qed.

(** ** The cost model in binary64 *)

Section Binary64.
Import PrimFloat.
Local Open Scope float_scope.

Lemma binary64_classCost_invariant (b : gmap string F64.OsUsage) (os : RunnerOS) :
  F64.cost (F64.classCost b os) = F64.minutes (F64.classCost b os) * F64.rate os.
Proof.
  unfold F64.classCost. destruct (b !! key os) as [u|].
  - reflexivity.
  - destruct os; vm_compute; reflexivity.
Qed.

Lemma binary64_bucket_costOfBillable (b : gmap string F64.OsUsage) (os : RunnerOS) :
  F64.bucket os (F64.breakdown (F64.costOfBillable b)) = F64.classCost b os.
Proof. destruct os; reflexivity. Qed.

Lemma binary64_classTotal_costOfBillable (b : gmap string F64.OsUsage) (os : RunnerOS) :
  F64.classTotal os (F64.costOfBillable b) = F64.cost (F64.classCost b os).
Proof. destruct os; reflexivity. Qed.

Lemma binary64_costOfBillable_invariant (b : gmap string F64.OsUsage) :
  F64.breakdown_invariant (F64.costOfBillable b).
Proof.
  split; [reflexivity|]. intros []; apply binary64_classCost_invariant.
Qed.

Lemma binary64_addJob_bucket (acc : F64.CostResult) (job : Job) (os : RunnerOS) :
  F64.bucket os (F64.breakdown (F64.addJob acc job))
  = match F64.jobMinutes job with
    | Some m =>
        if decide (detectRunnerOS (default [] (labels job)) = os)
        then F64.addTo (F64.bucket os (F64.breakdown acc)) m (F64.rate os)
        else F64.bucket os (F64.breakdown acc)
    | None => F64.bucket os (F64.breakdown acc)
    end.
Proof.
  unfold F64.addJob, F64.jobMinutes.
  destruct (started_at job) as [startTime|]; [|reflexivity].
  destruct (completed_at job) as [endTime|]; [|reflexivity].
  destruct (detectRunnerOS (default [] (labels job))); destruct os;
    case_decide; try congruence; reflexivity.
Qed.

Lemma binary64_addJob_classTotal (acc : F64.CostResult) (job : Job) (os : RunnerOS) :
  F64.classTotal os (F64.addJob acc job)
  = match F64.jobMinutes job with
    | Some m =>
        if decide (detectRunnerOS (default [] (labels job)) = os)
        then F64.classTotal os acc + m * F64.rate os
        else F64.classTotal os acc
    | None => F64.classTotal os acc
    end.
Proof.
  unfold F64.addJob, F64.jobMinutes.
  destruct (started_at job) as [startTime|]; [|reflexivity].
  destruct (completed_at job) as [endTime|]; [|reflexivity].
  destruct (detectRunnerOS (default [] (labels job))); destruct os;
    case_decide; try congruence; reflexivity.
Qed.

(** The loop of [calculateCostFromJobs] keeps three running sums per class:
    of the minutes, and (twice) of the products [minutes * rate]. *)
Lemma binary64_fold_addJob (jobs : list Job) (acc : F64.CostResult) (os : RunnerOS) :
  let r := fold_left F64.addJob jobs acc in
  let priced := map (fun m => m * F64.rate os) (F64.classMinutes os jobs) in
  F64.minutes (F64.bucket os (F64.breakdown r))
  = F64.runningSum (F64.minutes (F64.bucket os (F64.breakdown acc)))
                   (F64.classMinutes os jobs) /\
  F64.cost (F64.bucket os (F64.breakdown r))
  = F64.runningSum (F64.cost (F64.bucket os (F64.breakdown acc))) priced /\
  F64.classTotal os r = F64.runningSum (F64.classTotal os acc) priced.
Proof.
  revert acc. induction jobs as [|job jobs IH]; intros acc.
  - repeat split.
  - cbn [fold_left F64.classMinutes]. cbn zeta in *.
    destruct (IH (F64.addJob acc job)) as (Hm & Hc & Ht).
    rewrite Hm, Hc, Ht, binary64_addJob_bucket, binary64_addJob_classTotal.
    destruct (F64.jobMinutes job) as [m|]; [|repeat split].
    case_decide; repeat split.
Qed.

(** C8 (as amended).  In binary64, every breakdown computed from a usage
    payload ([calculateCost], and the authoritative branch of
    [calculateRepoCost]) has a total equal to the sum of its three per-class
    costs and each per-class cost equal to that class's minutes times its
    rate.  A breakdown computed by [calculateCostFromJobs] has a total equal
    to the sum of its three per-class costs as well; its per-class minutes
    are the running sum of the minutes of the timed jobs of the class, and
    its per-class cost is the running sum of the products [minutes * rate]
    of those jobs, each product rounded before it is added. *)
Theorem C8_binary64_breakdown_invariant :
  (forall timing, F64.breakdown_invariant (F64.calculateCost timing)) /\
  (forall timing r,
      F64.costFromTiming timing = Js.Returned r -> F64.breakdown_invariant r) /\
  (forall jobs,
      let r := F64.calculateCostFromJobs jobs in
      F64.total r
      = F64.cost (F64.bUBUNTU (F64.breakdown r))
        + F64.cost (F64.bWINDOWS (F64.breakdown r))
        + F64.cost (F64.bMACOS (F64.breakdown r)) /\
      forall os,
        F64.minutes (F64.bucket os (F64.breakdown r))
        = F64.runningSum 0 (F64.classMinutes os jobs) /\
        F64.cost (F64.bucket os (F64.breakdown r))
        = F64.runningSum 0 (map (fun m => m * F64.rate os) (F64.classMinutes os jobs)) /\
        F64.classTotal os r = F64.cost (F64.bucket os (F64.breakdown r))).
Proof.
  split; [|split].
  - intros timing. apply binary64_costOfBillable_invariant.
  - intros timing r Hr. unfold F64.costFromTiming in Hr.
    destruct (F64.hasBillableData _); [|discriminate].
    injection Hr as <-. apply binary64_costOfBillable_invariant.
  - intros jobs r.
    assert (Hos : forall os,
               F64.minutes (F64.bucket os (F64.breakdown r))
               = F64.runningSum 0 (F64.classMinutes os jobs) /\
               F64.cost (F64.bucket os (F64.breakdown r))
               = F64.runningSum 0 (map (fun m => m * F64.rate os)
                                       (F64.classMinutes os jobs)) /\
               F64.classTotal os r = F64.cost (F64.bucket os (F64.breakdown r))).
    { intros os. subst r. unfold F64.calculateCostFromJobs.
      destruct (binary64_fold_addJob jobs F64.emptyCosts os) as (Hm & Hc & Ht).
      cbn zeta in *. split; [|split].
      - cbn [F64.withTotal F64.breakdown]. rewrite Hm. destruct os; reflexivity.
      - cbn [F64.withTotal F64.breakdown]. rewrite Hc. destruct os; reflexivity.
      - cbn [F64.withTotal F64.breakdown]. rewrite Hc.
        transitivity (F64.classTotal os (fold_left F64.addJob jobs F64.emptyCosts));
          [destruct os; reflexivity|].
        rewrite Ht. destruct os; reflexivity. }
    split; [|exact Hos].
    destruct (Hos UBUNTU) as (_ & _ & HU), (Hos WINDOWS) as (_ & _ & HW),
             (Hos MACOS) as (_ & _ & HM).
    cbn [F64.bucket F64.classTotal] in HU, HW, HM. rewrite <- HU, <- HW, <- HM.
    reflexivity.
Qed.

(** Three Linux jobs of eleven seconds: the loop adds the rounded product
    [0.18333333333333332 * 0.008] three times and reaches
    0.0044000000000000003, while the accumulated minutes times the rate is
    0.0043999999999999994. *)
Lemma C8_job_cost_is_not_minutes_times_rate :
  let r := F64.calculateCostFromJobs elevenSecondJobs in
  let b := F64.bUBUNTU (F64.breakdown r) in
  F64.minutes b = 0.54999999999999993 /\
  F64.cost b = 0.0044000000000000003 /\
  F64.minutes b * F64.rate UBUNTU = 0.0043999999999999994 /\
  (F64.cost b =? F64.minutes b * F64.rate UBUNTU) = false /\
  ~ F64.breakdown_invariant r.
Proof.
  cbv zeta. repeat split; try (vm_compute; reflexivity).
  intros [_ H]. specialize (H UBUNTU).
  apply (f_equal (fun x => x =? 0.0044000000000000003)) in H.
  vm_compute in H. discriminate.
Qed.

(** C9 (as amended).  For every millisecond duration [d] and every class
    [c], the cost computed for [d] under [c] is the binary64 value of
    [d / 1000 / 60 * rate c]: two divisions and one product, each rounded to
    nearest, and nothing else before display.  So it is in [calculateCost],
    whatever else the payload holds; a single timed job adds that product to
    a zero sum.  One minute costs the rate of its class.  The rates are the
    binary64 values of 0.008 for Linux, 0.016 (twice Linux) for Windows and
    0.08 (ten times Linux) for macOS. *)
Theorem C9_binary64_cost_formula (d : float) (c : RunnerOS) :
  (forall b : gmap string F64.OsUsage,
      let r := F64.calculateCost
                 {| F64.billable := Some (<[key c := {| F64.total_ms := d |}]> b) |} in
      F64.minutes (F64.bucket c (F64.breakdown r)) = d / 1000 / 60 /\
      F64.cost (F64.bucket c (F64.breakdown r)) = d / 1000 / 60 * F64.rate c /\
      F64.classTotal c r = d / 1000 / 60 * F64.rate c) /\
  (forall (startTime endTime : Z) (labels0 : option (list string)),
      let job := {| started_at := Some startTime; completed_at := Some endTime;
                    labels := labels0 |} in
      let r := F64.calculateCostFromJobs [job] in
      let ms := F64.of_Z endTime - F64.of_Z startTime in
      F64.minutes (F64.bucket (jobOS job) (F64.breakdown r)) = 0 + ms / 1000 / 60 /\
      F64.cost (F64.bucket (jobOS job) (F64.breakdown r))
      = 0 + ms / 1000 / 60 * F64.rate (jobOS job)) /\
  F64.cost (F64.classCost {[ key c := {| F64.total_ms := 60000 |} ]} c) = F64.rate c /\
  F64.rate UBUNTU = 0.008 /\
  F64.rate WINDOWS = 0.016 /\ F64.rate WINDOWS = 2 * F64.rate UBUNTU /\
  F64.rate MACOS = 0.08 /\ F64.rate MACOS = 10 * F64.rate UBUNTU.
Proof.
  split; [|split; [|split]].
  - intros b r. subst r. unfold F64.calculateCost. cbn [F64.billable default].
    rewrite binary64_bucket_costOfBillable, binary64_classTotal_costOfBillable.
    unfold F64.classCost, Datatypes.id. rewrite lookup_insert_eq. repeat split.
  - intros startTime endTime labels0 job r ms.
    destruct (binary64_fold_addJob [job] F64.emptyCosts (jobOS job)) as (Hm & Hc & _).
    cbn zeta in *. subst r. unfold F64.calculateCostFromJobs.
    cbn [F64.withTotal F64.breakdown]. rewrite Hm, Hc.
    cbn [F64.classMinutes]. unfold F64.jobMinutes.
    cbn [started_at completed_at]. fold ms. unfold jobOS.
    destruct (decide _) as [_|Hne]; [|contradiction].
    destruct (detectRunnerOS (default [] (labels job))); split; reflexivity.
  - unfold F64.classCost. rewrite lookup_singleton_eq.
    destruct c; vm_compute; reflexivity.
  - repeat split; vm_compute; reflexivity.
Qed.

(** A payload of 43 ms of Linux usage: the code computes
    [43 / 1000 / 60 * 0.008 = 5.7333333333333324e-06], one unit in the last
    place below [43 / 60000 * 0.008 = 5.7333333333333332e-06]. *)
Lemma C9_cost_differs_from_d_over_60000 :
  let r := F64.calculateCost F64.shortUsage in
  F64.cost (F64.bUBUNTU (F64.breakdown r)) = 5.7333333333333324e-06 /\
  F64.total r = 5.7333333333333324e-06 /\
  43 / 60000 * F64.rate UBUNTU = 5.7333333333333332e-06 /\
  (F64.cost (F64.bUBUNTU (F64.breakdown r)) =? 43 / 60000 * F64.rate UBUNTU) = false /\
  F64.cost (F64.bUBUNTU (F64.breakdown r)) <> 43 / 60000 * F64.rate UBUNTU.
Proof.
  cbv zeta. repeat split; try (vm_compute; reflexivity).
  intros H. apply (f_equal (fun x => x =? 5.7333333333333332e-06)) in H.
  vm_compute in H. discriminate.
Qed.

End Binary64.

(** ** The run aggregator *)

Lemma runCost_thrown_iff (octokit : Octokit) (run : Run) :
  (exists e, runCost octokit run = Js.Thrown e) <-> jobFetchFails octokit run.
Proof.
  unfold jobFetchFails, runCost, costFromJobsOf.
  destruct (costFromUsage octokit run) as [c|e0]; cbn.
  - split.
    + intros [e He]. discriminate.
    + intros [[e He] _]. discriminate.
  - destruct (listJobsForWorkflowRun octokit (id run)) as [jobs|e1]; cbn.
    + split.
      * intros [e He]. discriminate.
      * intros [_ [e He]]. discriminate.
    + split; eauto.
Qed.

Lemma runFails_true_iff (octokit : Octokit) (run : Run) :
  runFails octokit run = true <-> jobFetchFails octokit run.
Proof.
  rewrite <- runCost_thrown_iff. unfold runFails.
  destruct (runCost octokit run) as [c|e].
  - split; [discriminate | intros [e He]; discriminate].
  - split; eauto.
Qed.

Lemma processRun_failed (octokit : Octokit) (t : Totals) (run : Run) :
  jobFetchFails octokit run -> processRun octokit t run = t.
Proof.
  intros H. apply runCost_thrown_iff in H as [e He].
  unfold processRun. now rewrite He.
Qed.

Lemma fold_processRun_analyzed (octokit : Octokit) (runs : list Run) (t : Totals) :
  (analyzed (fold_left (processRun octokit) runs t)
   + length (List.filter (runFails octokit) runs)
   = analyzed t + length runs)%nat.
Proof.
  revert t. induction runs as [|run runs IH]; intros t;
    cbn [fold_left List.filter length].
  - lia.
  - specialize (IH (processRun octokit t run)).
    assert (Hstep : (analyzed (processRun octokit t run)
                     + (if runFails octokit run then 1 else 0)
                     = S (analyzed t))%nat).
    { unfold processRun, runFails.
      destruct (runCost octokit run); cbn [addCost analyzed]; lia. }
    destruct (runFails octokit run); cbn [length]; lia.
Qed.

Lemma aggregate_skips_failed (octokit : Octokit) (before after : list Run) (run : Run) (t : Totals) :
  jobFetchFails octokit run ->
  fold_left (processRun octokit) (before ++ run :: after) t
  = fold_left (processRun octokit) (before ++ after) t.
Proof.
  intros H. rewrite !fold_left_app. cbn [fold_left].
  now rewrite (processRun_failed octokit _ run H).
Qed.

(** C4.  A run whose job fetch fails (the fallback was entered and the
    listing of its jobs threw) changes no aggregate total and is not counted
    in [analyzedRuns], wherever it stands in the batch; only [totalRuns]
    counts it.  The failure never leaves the loop: whenever the runs were
    listed, [calculateRepoCost] returns, with [analyzedRuns] equal to
    [totalRuns] minus the number of failed runs, hence at most [totalRuns].
    With ten runs of which three fail, [analyzedRuns] is 7 and [totalRuns]
    is 10. *)
Theorem C4_failed_runs_are_skipped (octokit : Octokit) (owner repo : string) (days : Q) :
  (forall before run after,
      jobFetchFails octokit run ->
      let r := aggregate octokit owner repo days (before ++ run :: after) in
      let r0 := aggregate octokit owner repo days (before ++ after) in
      analyzedRuns r = analyzedRuns r0 /\
      linuxMinutes r = linuxMinutes r0 /\
      windowsMinutes r = windowsMinutes r0 /\
      macosMinutes r = macosMinutes r0 /\
      actualCost r = actualCost r0 /\
      monthlyCost r = monthlyCost r0 /\
      yearlyCost r = yearlyCost r0 /\
      totalRuns r = S (totalRuns r0)) /\
  (forall allRuns,
      listWorkflowRunsForRepo octokit days = Js.Returned allRuns ->
      exists r,
        calculateRepoCost octokit owner repo days = Js.Returned r /\
        totalRuns r = length allRuns /\
        (analyzedRuns r + length (List.filter (runFails octokit) allRuns)
         = totalRuns r)%nat /\
        (analyzedRuns r <= totalRuns r)%nat /\
        (totalRuns r = 10%nat ->
         length (List.filter (runFails octokit) allRuns) = 3%nat ->
         analyzedRuns r = 7%nat)) /\
  (forall run, runFails octokit run = true <-> jobFetchFails octokit run) /\
  (exists r, calculateRepoCost demoOctokit owner repo days = Js.Returned r /\
             length (List.filter (runFails demoOctokit) tenRuns) = 3%nat /\
             analyzedRuns r = 7%nat /\ totalRuns r = 10%nat).
Proof.
  split; [|split; [|split]].
  - intros before run after H r r0. subst r r0. unfold aggregate.
    cbn [analyzedRuns linuxMinutes windowsMinutes macosMinutes actualCost
         monthlyCost yearlyCost totalRuns].
    rewrite (aggregate_skips_failed octokit before after run noTotals H).
    rewrite !length_app. cbn [length].
    repeat split; try reflexivity. lia.
  - intros allRuns Hruns. eexists. split.
    + unfold calculateRepoCost. rewrite Hruns. reflexivity.
    + unfold aggregate. cbn [totalRuns analyzedRuns].
      pose proof (fold_processRun_analyzed octokit allRuns noTotals) as Hn.
      cbn [noTotals analyzed] in Hn.
      repeat split; try lia.
  - intros run. apply runFails_true_iff.
  - eexists. split; [reflexivity|].
    repeat split; reflexivity.
Qed.

Lemma div_nonzero (a days : Q) : ~ days == 0 -> Js.div a days = Js.Finite (a / days).
Proof.
  intros H. unfold Js.div. destruct (Qeq_bool days 0) eqn:E; [|reflexivity].
  apply Qeq_bool_iff in E. contradiction.
Qed.

Lemma div_zero (a days : Q) : days == 0 -> 0 < a -> Js.div a days = Js.PosInfinity.
Proof.
  intros H Ha. unfold Js.div.
  apply Qeq_bool_iff in H. rewrite H.
  apply gt_spec in Ha. now rewrite Ha.
Qed.

(** C1 (as amended).  [calculateRepoCost] has no check of [days]: for every
    value of [days], zero and negative ones included, it returns a result
    whenever the listing of the runs succeeds, and the only failure it can
    end with is the failure of that listing.  For [days < 0] the projections
    are [actualCost * (30 / days)] and [actualCost * (365 / days)]; for
    [days = 0] the multipliers are infinite, so both projections are
    +Infinity, -Infinity or NaN according to the sign of [actualCost]. *)
Theorem C1_no_window_check (octokit : Octokit) (owner repo : string) (days : Q) :
  (forall allRuns,
      listWorkflowRunsForRepo octokit days = Js.Returned allRuns ->
      calculateRepoCost octokit owner repo days
      = Js.Returned (aggregate octokit owner repo days allRuns)) /\
  (forall e,
      calculateRepoCost octokit owner repo days = Js.Thrown e
      <-> listWorkflowRunsForRepo octokit days = Js.Thrown e) /\
  (forall allRuns,
      let r := aggregate octokit owner repo days allRuns in
      (days < 0 ->
       monthlyCost r = Js.Finite (actualCost r * (30 / days)) /\
       yearlyCost r = Js.Finite (actualCost r * (365 / days))) /\
      (days == 0 ->
       let unbounded :=
         if Js.gt (actualCost r) 0 then Js.PosInfinity
         else if Js.lt (actualCost r) 0 then Js.NegInfinity
         else Js.NaN in
       monthlyCost r = unbounded /\ yearlyCost r = unbounded)).
Proof.
  split; [|split].
  - intros allRuns H. unfold calculateRepoCost. now rewrite H.
  - intros e. unfold calculateRepoCost.
    destruct (listWorkflowRunsForRepo octokit days) as [allRuns|e']; cbn.
    + split; discriminate.
    + split; intros H; injection H as ->; reflexivity.
  - intros allRuns r. split.
    + intros Hneg. subst r. unfold aggregate. cbn [monthlyCost yearlyCost actualCost].
      assert (~ days == 0) as Hnz by lra.
      rewrite !(div_nonzero _ days Hnz). split; reflexivity.
    + intros Hz unbounded. subst r unbounded. unfold aggregate.
      cbn [monthlyCost yearlyCost actualCost].
      rewrite !(div_zero _ days Hz) by reflexivity. split; reflexivity.
Qed.

(** C1, the claim as stated, fails: with [days = 0], and with [days = -7],
    [calculateRepoCost] returns a result for the ten-run repository instead
    of failing; the projections are +Infinity for [days = 0]. *)
Lemma C1_nonpositive_days_return :
  (exists r, calculateRepoCost demoOctokit "octo" "repo" 0 = Js.Returned r /\
             totalRuns r = 10%nat /\ analyzedRuns r = 7%nat /\
             actualCost r == 0.08 /\
             monthlyCost r = Js.PosInfinity /\ yearlyCost r = Js.PosInfinity) /\
  (exists r m, calculateRepoCost demoOctokit "octo" "repo" (-7) = Js.Returned r /\
             totalRuns r = 10%nat /\ analyzedRuns r = 7%nat /\
             monthlyCost r = Js.Finite m /\ m < 0).
Proof.
  split.
  - eexists. split; [vm_compute; reflexivity|].
    repeat split; reflexivity.
  - eexists. eexists. split; [vm_compute; reflexivity|].
    repeat split; reflexivity.
Qed.

(** C5.  For [days > 0] the result of [calculateRepoCost] has
    [monthlyCost = actualCost * (30 / days)] and
    [yearlyCost = actualCost * (365 / days)]; with [days = 7] and an actual
    cost of 1.00 these are 30/7 (4.2857 at four decimals) and 365/7
    (52.1429). *)
Theorem C5_projections (octokit : Octokit) (owner repo : string) (days : Q)
    (r : CalculationResult) :
  0 < days ->
  calculateRepoCost octokit owner repo days = Js.Returned r ->
  monthlyCost r = Js.Finite (actualCost r * (30 / days)) /\
  yearlyCost r = Js.Finite (actualCost r * (365 / days)) /\
  (days == 7 -> actualCost r == 1 ->
   exists m y,
     monthlyCost r = Js.Finite m /\ yearlyCost r = Js.Finite y /\
     m == 30 / 7 /\ y == 365 / 7 /\
     rounds_to4 m 4.2857 /\ rounds_to4 y 52.1429).
Proof.
  intros Hpos Hr. unfold calculateRepoCost in Hr.
  destruct (listWorkflowRunsForRepo octokit days) as [allRuns|e]; cbn in Hr;
    [|discriminate].
  injection Hr as <-. unfold aggregate. cbn [monthlyCost yearlyCost actualCost].
  generalize (totalCost (fold_left (processRun octokit) allRuns noTotals)).
  intros actual.
  assert (~ days == 0) as Hnz by lra.
  rewrite !(div_nonzero _ days Hnz). cbn [Js.mul].
  split; [reflexivity|]. split; [reflexivity|].
  intros H7 H1.
  exists (actual * (30 / days)), (actual * (365 / days)).
  split; [reflexivity|]. split; [reflexivity|].
  assert (Hm : actual * (30 / days) == 30 / 7) by (rewrite H7, H1; field).
  assert (Hy : actual * (365 / days) == 365 / 7) by (rewrite H7, H1; field).
  unfold rounds_to4. rewrite Hm, Hy.
  repeat split; try reflexivity; discriminate.
Qed.

Lemma C5_projections_witness :
  exists r, calculateRepoCost dollarOctokit "octo" "repo" 7 = Js.Returned r /\
     monthlyCost r = Js.Finite (actualCost r * (30 / 7)) /\
     yearlyCost r = Js.Finite (actualCost r * (365 / 7)) /\
     (7 == 7 -> actualCost r == 1 ->
      exists m y,
        monthlyCost r = Js.Finite m /\ yearlyCost r = Js.Finite y /\
        m == 30 / 7 /\ y == 365 / 7 /\
        rounds_to4 m 4.2857 /\ rounds_to4 y 52.1429).
Proof.
  eexists. split; [vm_compute; reflexivity|].
  apply (C5_projections dollarOctokit "octo" "repo" 7).
  - reflexivity.
  - vm_compute. reflexivity.
Defined.

Lemma costFromTiming_thrown (timing : Timing) :
  costFromTiming timing = Js.Thrown (Js.Error "No billable data")
  <-> noPositiveDuration (default ∅ (billable timing)).
Proof.
  rewrite <- hasBillableData_false. unfold costFromTiming.
  destruct (hasBillableData _); split; congruence || discriminate.
Qed.

Lemma costFromTiming_returned (timing : Timing) :
  hasBillableData (default ∅ (billable timing)) = true ->
  costFromTiming timing = Js.Returned (costOfBillable (default ∅ (billable timing))).
Proof. intros H. unfold costFromTiming. now rewrite H. Qed.

(** C2 (as amended).  The authoritative branch signals insufficient data, by
    throwing "No billable data", if and only if no entry of the usage record
    has a positive duration: the record is absent or empty, or every entry
    present has a zero or negative duration.  When no duration is negative
    this is the same as every entry present having duration zero.  The
    exception routes the run to the job-based computation.
    [{UBUNTU: {total_ms: 0}}] is insufficient; [{UBUNTU: {total_ms: 60000}}]
    is not, and yields 1 Linux minute at cost 0.008. *)
Theorem C2_insufficient_iff_no_positive_duration (timing : Timing) :
  let b := default ∅ (billable timing) in
  (costFromTiming timing = Js.Thrown (Js.Error "No billable data")
   <-> noPositiveDuration b) /\
  (costFromTiming timing = Js.Returned (costOfBillable b)
   <-> ~ noPositiveDuration b) /\
  ((forall k u, b !! k = Some u -> 0 <= total_ms u) ->
   (noPositiveDuration b <-> allZeroDuration b)) /\
  (billable timing = None \/ billable timing = Some ∅ -> noPositiveDuration b) /\
  (forall octokit run,
      getWorkflowRunUsage octokit (id run) = Js.Returned timing ->
      noPositiveDuration b ->
      runCost octokit run = costFromJobsOf octokit run) /\
  costFromTiming idleUsage = Js.Thrown (Js.Error "No billable data") /\
  (exists r, costFromTiming oneMinuteUsage = Js.Returned r /\
             minutes (bUBUNTU (breakdown r)) == 1 /\
             cost (bUBUNTU (breakdown r)) == 0.008 /\
             total r == 0.008).
Proof.
  intros b. pose proof (costFromTiming_thrown timing) as Hthrown. fold b in Hthrown.
  split; [exact Hthrown|]. split; [|split; [|split; [|split; [|split]]]].
  - split.
    + intros Hr Hno. apply Hthrown in Hno. congruence.
    + intros Hsome. destruct (hasBillableData b) eqn:E.
      * now apply costFromTiming_returned.
      * apply hasBillableData_false in E. contradiction.
  - intros Hnonneg. unfold noPositiveDuration, allZeroDuration.
    split; intros H k u Hk.
    + apply Qle_antisym; eauto.
    + rewrite (H k u Hk). apply Qle_refl.
  - intros [H|H]; subst b; rewrite H; intros k u; cbn; rewrite lookup_empty; discriminate.
  - intros octokit run Hu Hno. unfold runCost, costFromUsage. rewrite Hu. cbn.
    apply Hthrown in Hno. now rewrite Hno.
  - reflexivity.
  - eexists. split; [vm_compute; reflexivity|]. repeat split; reflexivity.
Qed.

(** C2, the claim as stated, fails: [{UBUNTU: {total_ms: -60000}}] is neither
    absent nor empty and its one class has a non-zero duration, yet the
    authoritative branch signals insufficient data. *)
Lemma C2_negative_duration_is_insufficient :
  costFromTiming negativeUsage = Js.Thrown (Js.Error "No billable data") /\
  billable negativeUsage <> None /\
  billable negativeUsage <> Some ∅ /\
  ~ allZeroDuration (default ∅ (billable negativeUsage)).
Proof.
  split; [reflexivity|]. split; [discriminate|]. split.
  - intros H.
    assert (E : default ∅ (billable negativeUsage) !! "UBUNTU"%string
                = (∅ : gmap string OsUsage) !! "UBUNTU"%string)
      by (rewrite H; reflexivity).
    vm_compute in E. discriminate.
  - intros H. specialize (H "UBUNTU"%string {| total_ms := -60000 |} eq_refl).
    vm_compute in H. discriminate.
Qed.

Lemma costOfBillable_reads_class_keys (b b' : gmap string OsUsage) :
  (forall os, b !! key os = b' !! key os) -> costOfBillable b = costOfBillable b'.
Proof.
  intros H. unfold costOfBillable, classCost.
  now rewrite (H UBUNTU), (H WINDOWS), (H MACOS).
Qed.

Lemma classCost_zero (b : gmap string OsUsage) (os : RunnerOS) :
  (forall u, b !! key os = Some u -> total_ms u == 0) ->
  minutes (classCost b os) == 0 /\ cost (classCost b os) == 0.
Proof.
  intros H. destruct (b !! key os) as [u|] eqn:Hk.
  - destruct (classCost_present b os u Hk) as [Hm Hc].
    rewrite Hm, Hc, (H u eq_refl). split; reflexivity.
  - rewrite (classCost_absent b os Hk). split; reflexivity.
Qed.

(** C10 (as amended).  The scan that sets [hasBillableData] looks at every
    key of the payload, while the breakdown reads only UBUNTU, WINDOWS and
    MACOS.  So when some key outside these three carries a positive duration
    and each of the three classes is absent or has duration zero, the run is
    not sent to the job-based fallback, it is counted as analyzed, and it adds
    exactly zero minutes and zero cost to every total. *)
Theorem C10_foreign_key_usage (octokit : Octokit) (run : Run) (timing : Timing) :
  getWorkflowRunUsage octokit (id run) = Js.Returned timing ->
  let b := default ∅ (billable timing) in
  (exists k u, ~ classKey k /\ b !! k = Some u /\ 0 < total_ms u) ->
  (forall os u, b !! key os = Some u -> total_ms u == 0) ->
  exists c,
    runCost octokit run = Js.Returned c /\
    c = costOfBillable b /\
    (forall os, minutes (bucket os (breakdown c)) == 0 /\
                cost (bucket os (breakdown c)) == 0) /\
    total c == 0 /\
    forall t,
      let t' := processRun octokit t run in
      analyzed t' = S (analyzed t) /\
      totalLinuxMinutes t' == totalLinuxMinutes t /\
      totalWindowsMinutes t' == totalWindowsMinutes t /\
      totalMacOSMinutes t' == totalMacOSMinutes t /\
      totalCost t' == totalCost t.
Proof.
  intros Hu b (k & u & _ & Hk & Hpos) Hzero.
  assert (Hhas : hasBillableData b = true)
    by (apply hasBillableData_spec; eauto).
  assert (Hrun : runCost octokit run = Js.Returned (costOfBillable b)).
  { unfold runCost, costFromUsage. rewrite Hu. cbn.
    now rewrite (costFromTiming_returned timing Hhas). }
  assert (Hclass : forall os, minutes (classCost b os) == 0 /\ cost (classCost b os) == 0).
  { intros os. apply classCost_zero. intros u'. apply Hzero. }
  destruct (Hclass UBUNTU) as [HmU HcU].
  destruct (Hclass WINDOWS) as [HmW HcW].
  destruct (Hclass MACOS) as [HmM HcM].
  assert (Htotal : total (costOfBillable b) == 0).
  { cbn [costOfBillable total]. rewrite HcU, HcW, HcM. reflexivity. }
  exists (costOfBillable b). split; [exact Hrun|]. split; [reflexivity|].
  split; [|split].
  - intros os. rewrite bucket_costOfBillable. apply Hclass.
  - exact Htotal.
  - intros t t'. subst t'. unfold processRun. rewrite Hrun.
    cbn [addCost analyzed totalLinuxMinutes totalWindowsMinutes totalMacOSMinutes totalCost].
    split; [reflexivity|].
    rewrite Htotal. cbn [costOfBillable breakdown bUBUNTU bWINDOWS bMACOS].
    rewrite HmU, HmW, HmM. repeat split; ring.
Qed.

Lemma C10_foreign_key_usage_witness :
  exists c,
    runCost (usageOctokit foreignUsage) {| id := 1 |} = Js.Returned c /\
    c = costOfBillable (default ∅ (billable foreignUsage)) /\
    (forall os, minutes (bucket os (breakdown c)) == 0 /\
                cost (bucket os (breakdown c)) == 0) /\
    total c == 0 /\
    forall t,
      let t' := processRun (usageOctokit foreignUsage) t {| id := 1 |} in
      analyzed t' = S (analyzed t) /\
      totalLinuxMinutes t' == totalLinuxMinutes t /\
      totalWindowsMinutes t' == totalWindowsMinutes t /\
      totalMacOSMinutes t' == totalMacOSMinutes t /\
      totalCost t' == totalCost t.
Proof.
  apply (C10_foreign_key_usage (usageOctokit foreignUsage) {| id := 1 |} foreignUsage).
  - reflexivity.
  - exists "OTHER"%string, {| total_ms := 1000 |}. split; [|split].
    + intros [H|[H|H]]; discriminate.
    + vm_compute. reflexivity.
    + reflexivity.
  - intros os u. destruct os; vm_compute; intros H; try discriminate.
    injection H as <-. reflexivity.
Defined.

(** C10, the claim as stated, fails: in
    [{OTHER: {total_ms: 1000}, UBUNTU: {total_ms: -60000}}] the only
    positive duration is under a key outside the three classes, the run is
    analyzed without fallback, and it adds -1 Linux minutes and a cost of
    -0.008 to the totals. *)
Lemma C10_negative_class_entry_counts :
  let b := default ∅ (billable foreignNegativeUsage) in
  let octokit := usageOctokit foreignNegativeUsage in
  let t := processRun octokit noTotals {| id := 1 |} in
  (exists k u, ~ classKey k /\ b !! k = Some u /\ 0 < total_ms u) /\
  (forall os u, b !! key os = Some u -> ~ 0 < total_ms u) /\
  analyzed t = 1%nat /\
  totalLinuxMinutes t == -1 /\
  totalCost t == -0.008 /\
  ~ totalLinuxMinutes t == 0 /\
  ~ totalCost t == 0.
Proof.
  split; [|split].
  - exists "OTHER"%string, {| total_ms := 1000 |}. split; [|split].
    + intros [H|[H|H]]; discriminate.
    + vm_compute. reflexivity.
    + reflexivity.
  - intros os u. destruct os; vm_compute; intros H; try discriminate.
    injection H as <-. discriminate.
  - repeat split; try reflexivity; vm_compute; discriminate.
Qed.

Lemma classCost_nonnegative (b : gmap string OsUsage) (os : RunnerOS) :
  (forall u, b !! key os = Some u -> 0 <= total_ms u) ->
  0 <= cost (classCost b os) /\
  (cost (classCost b os) == 0 <-> forall u, b !! key os = Some u -> total_ms u == 0).
Proof.
  intros Hnn. destruct (b !! key os) as [u|] eqn:Hk.
  - destruct (classCost_present b os u Hk) as [_ Hc].
    specialize (Hnn u eq_refl).
    assert (exists k, 0 < k /\ cost (classCost b os) == total_ms u * k) as (k & Hkpos & Hcost).
    { exists (rate os / 60000). split.
      - destruct os; reflexivity.
      - rewrite Hc. field. }
    assert (0 <= total_ms u * k) as Hprod
      by (apply Qmult_le_0_compat; [exact Hnn | apply Qlt_le_weak, Hkpos]).
    split; [rewrite Hcost; exact Hprod|]. split.
    + intros H0 u' Hu'. injection Hu' as <-. rewrite Hcost in H0.
      destruct (Qmult_integral _ _ H0) as [Hz|Hz]; [exact Hz|].
      rewrite Hz in Hkpos. discriminate.
    + intros H0. rewrite Hcost, (H0 u eq_refl). ring.
  - rewrite (classCost_absent b os Hk). cbn [cost zeroCost].
    split; [apply Qle_refl|]. split; [intros _ u Hu; discriminate | reflexivity].
Qed.

(** The command-line tool decides the fallback on the computed total instead:
    when no class carries a negative duration, it falls back exactly when
    each of the three classes is absent or has duration zero. *)
Lemma cliFallsBack_iff_classes_zero (timing : Timing) :
  let b := default ∅ (billable timing) in
  (forall os u, b !! key os = Some u -> 0 <= total_ms u) ->
  (cliFallsBack timing = true
   <-> forall os u, b !! key os = Some u -> total_ms u == 0).
Proof.
  intros b Hnn. unfold cliFallsBack, calculateCost. fold b.
  rewrite Qeq_bool_iff. cbn [costOfBillable total].
  destruct (classCost_nonnegative b UBUNTU (Hnn UBUNTU)) as [HU HU0].
  destruct (classCost_nonnegative b WINDOWS (Hnn WINDOWS)) as [HW HW0].
  destruct (classCost_nonnegative b MACOS (Hnn MACOS)) as [HM HM0].
  split.
  - intros Hsum os. destruct os; [apply HU0 | apply HW0 | apply HM0]; lra.
  - intros Hz.
    assert (cost (classCost b UBUNTU) == 0) as -> by (apply HU0, Hz).
    assert (cost (classCost b WINDOWS) == 0) as -> by (apply HW0, Hz).
    assert (cost (classCost b MACOS) == 0) as -> by (apply HM0, Hz).
    reflexivity.
Qed.

(** * Further properties of the code *)

(** ** Repository strings *)

Lemma append_empty_r (s : string) : (s +:+ EmptyString)%string = s.
Proof.
  induction s as [|c s IH]; [reflexivity|].
  change (String c (s +:+ EmptyString)%string = String c s). now rewrite IH.
Qed.

Lemma slashFree_cons (c : ascii) (s : string) :
  slashFree (String c s) <-> c <> "/"%char /\ slashFree s.
Proof.
  unfold slashFree, occurs_in. split.
  - intros H. split.
    + intros ->. apply H. exists EmptyString, s. reflexivity.
    + intros (a & b & ->). apply H. exists (String c a), b. reflexivity.
  - intros [Hc Hs] (a & b & E). destruct a as [|c' a]; cbn in E.
    + injection E as -> _. now apply Hc.
    + injection E as _ ->. apply Hs. now exists a, b.
Qed.

Lemma slashFree_empty : slashFree EmptyString.
Proof. intros (a & b & E). destruct a; discriminate. Qed.

Lemma untilSlash_spec (s : string) :
  let (group, rest) := GithubApi.untilSlash s in
  s = (group +:+ rest)%string /\ slashFree group /\
  (rest = EmptyString \/ exists rest', rest = String "/" rest').
Proof.
  induction s as [|c s IH]; cbn [GithubApi.untilSlash].
  - split; [reflexivity|]. split; [apply slashFree_empty | now left].
  - destruct (Ascii.eqb c "/") eqn:E.
    + apply Ascii.eqb_eq in E as ->.
      split; [reflexivity|]. split; [apply slashFree_empty | right; eauto].
    + destruct (GithubApi.untilSlash s) as [group rest].
      destruct IH as (-> & Hfree & Hrest).
      split; [reflexivity|]. split; [|exact Hrest].
      apply slashFree_cons. split; [|exact Hfree].
      intros ->. now rewrite Ascii.eqb_refl in E.
Qed.

Lemma untilSlash_slashFree (a rest : string) :
  slashFree a ->
  GithubApi.untilSlash (a +:+ String "/" rest) = (a, String "/" rest) /\
  GithubApi.untilSlash a = (a, EmptyString).
Proof.
  induction a as [|c a IH]; intros Hfree.
  - split; reflexivity.
  - apply slashFree_cons in Hfree as [Hc Hfree].
    destruct (IH Hfree) as [IH1 IH2].
    assert (Ascii.eqb c "/" = false) as E by now apply Ascii.eqb_neq.
    split.
    + change (String c a +:+ String "/" rest)%string
        with (String c (a +:+ String "/" rest)%string).
      cbn [GithubApi.untilSlash]. now rewrite E, IH1.
    + cbn [GithubApi.untilSlash]. now rewrite E, IH2.
Qed.

(** X1.  [parseRepository] returns exactly on the strings made of a non-empty
    slash-free owner, one slash and a non-empty slash-free repository name,
    and then returns these two parts; on every other string it throws
    "Invalid repository format. Use: owner/repo". *)
Theorem parseRepository_spec (repoString : string) :
  (forall r,
      GithubApi.parseRepository repoString = Js.Returned r <->
      repoString = (GithubApi.owner r +:+ "/" +:+ GithubApi.repo r)%string /\
      GithubApi.owner r <> EmptyString /\ GithubApi.repo r <> EmptyString /\
      slashFree (GithubApi.owner r) /\ slashFree (GithubApi.repo r)) /\
  (forall e,
      GithubApi.parseRepository repoString = Js.Thrown e ->
      e = Js.Error "Invalid repository format. Use: owner/repo").
Proof.
  split.
  - intros [o r]. cbn [GithubApi.owner GithubApi.repo]. split.
    + unfold GithubApi.parseRepository, GithubApi.matchOwnerRepo.
      pose proof (untilSlash_spec repoString) as H1.
      destruct (GithubApi.untilSlash repoString) as [group1 rest].
      destruct H1 as (-> & Hfree1 & Hrest).
      destruct group1 as [|c1 g1]; [discriminate|].
      destruct rest as [|c rest']; [discriminate|].
      destruct Hrest as [Hrest|[rest'' Hrest]]; [discriminate|].
      injection Hrest as -> ->.
      pose proof (untilSlash_spec rest'') as H2.
      destruct (GithubApi.untilSlash rest'') as [group2 tail].
      destruct H2 as (-> & Hfree2 & _).
      destruct group2 as [|c2 g2]; [discriminate|].
      destruct tail; [|discriminate].
      intros E. injection E as <- <-.
      repeat split; try assumption; try discriminate.
      now rewrite append_empty_r.
    + intros (-> & Ho & Hr & Hfo & Hfr).
      unfold GithubApi.parseRepository, GithubApi.matchOwnerRepo.
      change (o +:+ "/" +:+ r)%string with (o +:+ String "/" r)%string.
      destruct (untilSlash_slashFree o r Hfo) as [-> _].
      destruct (untilSlash_slashFree r EmptyString Hfr) as [_ ->].
      destruct o; [contradiction|]. destruct r; [contradiction|]. reflexivity.
  - unfold GithubApi.parseRepository.
    destruct (GithubApi.matchOwnerRepo repoString) as [[o r]|]; intros e E;
      [discriminate | now injection E as <-].
Qed.

(** X2.  The repository string survives the computation: when
    [parseRepository] accepts a string and [calculateRepoCost] runs on the
    owner and the repository it returned, the [slug] of the result is the
    string that was parsed. *)
Theorem slug_round_trip (octokit : Octokit) (repoString : string) (days : Q)
    (r : GithubApi.Repository) (result : CalculationResult) :
  GithubApi.parseRepository repoString = Js.Returned r ->
  calculateRepoCost octokit (GithubApi.owner r) (GithubApi.repo r) days
  = Js.Returned result ->
  slug result = repoString /\
  owner result = GithubApi.owner r /\ repo result = GithubApi.repo r /\
  GithubApi.parseRepository (slug result) = Js.Returned r.
Proof.
  intros Hparse Hcalc.
  pose proof Hparse as Hspec. apply (proj1 (parseRepository_spec repoString)) in Hspec.
  destruct Hspec as (Hs & _).
  unfold calculateRepoCost in Hcalc.
  destruct (listWorkflowRunsForRepo octokit days) as [allRuns|e]; cbn in Hcalc;
    [|discriminate].
  injection Hcalc as <-. cbn [aggregate slug owner repo].
  assert (Hslug : (GithubApi.owner r ++ "/" ++ GithubApi.repo r)%string = repoString)
    by (now rewrite Hs).
  rewrite Hslug. repeat split; try reflexivity. exact Hparse.
Qed.

Lemma slug_round_trip_witness :
  exists result,
    calculateRepoCost demoOctokit "octo" "repo" 7 = Js.Returned result /\
    slug result = "octo/repo"%string /\
    GithubApi.parseRepository (slug result)
    = Js.Returned {| GithubApi.owner := "octo"; GithubApi.repo := "repo" |}.
Proof.
  eexists. split; [vm_compute; reflexivity|].
  pose proof (slug_round_trip demoOctokit "octo/repo" 7
                {| GithubApi.owner := "octo"; GithubApi.repo := "repo" |} _
                eq_refl eq_refl) as (H1 & _ & _ & H4).
  split; [exact H1 | exact H4].
Defined.

(** ** The durable workflow *)

Lemma processBatch_fold (octokit : Octokit) (batch : list Run)
    (results : list CostResult) (t : Totals) :
  fold_left addCost
    (fold_left
       (fun results run =>
          match runCost octokit run with
          | Js.Returned cost => results ++ [cost]
          | Js.Thrown _ => results
          end)
       batch results) t
  = fold_left (processRun octokit) batch (fold_left addCost results t).
Proof.
  revert results. induction batch as [|run batch IH]; intros results;
    cbn [fold_left]; [reflexivity|].
  rewrite IH. f_equal. unfold processRun.
  destruct (runCost octokit run) as [cost|e]; [|reflexivity].
  now rewrite fold_left_app.
Qed.

Lemma batchLoop_spec (octokit : Octokit) (allRuns : list Run) (fuel i : nat)
    (t : Totals) :
  (length allRuns <= i + fuel)%nat ->
  Ploy.batchLoop octokit allRuns fuel i t
  = fold_left (processRun octokit) (skipn i allRuns) t.
Proof.
  revert i t. induction fuel as [|fuel IH]; intros i t Hfuel;
    cbn [Ploy.batchLoop].
  - rewrite skipn_all2 by lia. reflexivity.
  - destruct (Nat.ltb_spec i (length allRuns)) as [Hlt|Hge].
    + rewrite IH by (unfold Ploy.batchSize; lia).
      unfold Ploy.processBatch. rewrite processBatch_fold. cbn [fold_left].
      rewrite <- fold_left_app. f_equal.
      rewrite Nat.add_comm, <- skipn_skipn. apply firstn_skipn.
    + rewrite skipn_all2 by lia. reflexivity.
Qed.

(** X3.  Batching is invisible: the workflow, which processes the runs in
    slices of ten and adds up the costs each slice collected, returns the
    very result [calculateRepoCost] returns for the same repository, window
    and API answers (and fails exactly when it fails). *)
Theorem workflow_equals_direct_calculation (octokit : Octokit)
    (o r : string) (d : Q) :
  Ploy.calculate_repo_cost octokit
    {| Ploy.owner := o; Ploy.repo := r; Ploy.slug := (o ++ "/" ++ r)%string;
       Ploy.days := d |}
  = calculateRepoCost octokit o r d.
Proof.
  unfold Ploy.calculate_repo_cost, calculateRepoCost.
  cbn [Ploy.days Ploy.owner Ploy.repo Ploy.slug].
  destruct (listWorkflowRunsForRepo octokit d) as [allRuns|e]; [|reflexivity].
  cbn. unfold aggregate.
  rewrite (batchLoop_spec octokit allRuns (length allRuns) 0 noTotals) by lia.
  reflexivity.
Qed.

(** ** The command-line tool *)

Lemma actualDaysOf_nonzero (days : option Q) : ~ Cli.actualDaysOf days == 0.
Proof.
  unfold Cli.actualDaysOf, Cli.truthy. destruct days as [d|]; cbn.
  - destruct (Qeq_bool d 0) eqn:E; cbn.
    + discriminate.
    + now apply Qeq_bool_neq.
  - discriminate.
Qed.

(** X4.  The command-line tool never divides by a zero window: the projection
    window is [days] when the option is a non-zero number and 7 otherwise
    (option absent, not a number, or 0), so every projection it prints is a
    finite number, the total times 30 (or 365) over that window. *)
Theorem cli_projections_are_finite (client : Cli.Client) (repoString : string)
    (days : option Q) (s : Cli.Summary) :
  Cli.main client repoString days = Cli.Printed s ->
  ~ Cli.actualDays s == 0 /\
  (days = None \/ (exists d, days = Some d /\ d == 0) -> Cli.actualDays s = 7) /\
  (forall d, days = Some d -> ~ d == 0 -> Cli.actualDays s = d) /\
  Cli.monthlyCost s
  = Js.Finite (totalCost (Cli.totals s) * (30 / Cli.actualDays s)) /\
  Cli.yearlyCost s
  = Js.Finite (totalCost (Cli.totals s) * (365 / Cli.actualDays s)) /\
  Cli.monthlyLinux s
  = Js.Finite (totalLinuxMinutes (Cli.totals s) * (30 / Cli.actualDays s)) /\
  Cli.yearlyLinux s
  = Js.Finite (totalLinuxMinutes (Cli.totals s) * (365 / Cli.actualDays s)) /\
  Cli.monthlyWindows s
  = Js.Finite (totalWindowsMinutes (Cli.totals s) * (30 / Cli.actualDays s)) /\
  Cli.yearlyWindows s
  = Js.Finite (totalWindowsMinutes (Cli.totals s) * (365 / Cli.actualDays s)) /\
  Cli.monthlyMacOS s
  = Js.Finite (totalMacOSMinutes (Cli.totals s) * (30 / Cli.actualDays s)) /\
  Cli.yearlyMacOS s
  = Js.Finite (totalMacOSMinutes (Cli.totals s) * (365 / Cli.actualDays s)).
Proof.
  intros Hmain. unfold Cli.main in Hmain.
  destruct (GithubApi.parseRepository repoString) as [r|[m]]; [|discriminate].
  destruct (Cli.getWorkflowRuns client (Cli.truthy days)) as [runs|[m]];
    [|discriminate].
  destruct (length runs =? 0)%nat; [discriminate|].
  injection Hmain as <-. unfold Cli.summarize.
  cbn [Cli.actualDays Cli.monthlyCost Cli.yearlyCost Cli.monthlyLinux
       Cli.yearlyLinux Cli.monthlyWindows Cli.yearlyWindows Cli.monthlyMacOS
       Cli.yearlyMacOS Cli.totals].
  pose proof (actualDaysOf_nonzero days) as Hnz.
  rewrite !(div_nonzero _ _ Hnz). cbn [Js.mul].
  split; [exact Hnz|]. split; [|split; [|repeat split; reflexivity]].
  - intros [->|(d & -> & Hd)]; [reflexivity|].
    unfold Cli.actualDaysOf, Cli.truthy.
    apply Qeq_bool_iff in Hd. now rewrite Hd.
  - intros d -> Hd. unfold Cli.actualDaysOf, Cli.truthy.
    destruct (Qeq_bool d 0) eqn:E; [|reflexivity].
    apply Qeq_bool_iff in E. contradiction.
Qed.

Lemma cli_projections_are_finite_witness :
  exists s,
    Cli.main demoClient "octo/repo" (Some 0) = Cli.Printed s /\
    Cli.actualDays s = 7 /\
    Cli.monthlyCost s = Js.Finite (totalCost (Cli.totals s) * (30 / Cli.actualDays s)).
Proof.
  eexists. split; [vm_compute; reflexivity|].
  pose proof (cli_projections_are_finite demoClient "octo/repo" (Some 0) _ eq_refl)
    as (_ & H7 & _ & Hm & _).
  split; [apply H7; right; exists 0; split; reflexivity | exact Hm].
Defined.

Lemma Qle_lteq_zero (q : Q) : q == 0 -> 0 <= q.
Proof. intros ->. apply Qle_refl. Qed.

Lemma classKey_key (k : string) : classKey k <-> exists os, k = key os.
Proof.
  split.
  - intros [->|[->| ->]]; [exists UBUNTU | exists WINDOWS | exists MACOS]; reflexivity.
  - intros [[] ->]; cbn; unfold classKey; auto.
Qed.

Lemma wellFormed_fallback_agrees (timing : Timing) :
  wellFormedUsage timing ->
  cliFallsBack timing = negb (hasBillableData (default ∅ (billable timing))).
Proof.
  intros Hwf. set (b := default ∅ (billable timing)) in *.
  assert (Hnn : forall os u, b !! key os = Some u -> 0 <= total_ms u)
    by (intros os u Hk; apply (Hwf _ _ Hk)).
  pose proof (cliFallsBack_iff_classes_zero timing Hnn) as Hcli. fold b in Hcli.
  destruct (hasBillableData b) eqn:Hhas; cbn [negb].
  - apply not_true_is_false. intros Hfb. pose proof (proj1 Hcli Hfb) as Hz.
    apply hasBillableData_spec in Hhas as (k & u & Hk & Hpos).
    destruct (Hwf k u Hk) as [Hclass _].
    apply classKey_key in Hclass as [os ->].
    rewrite (Hz os u Hk) in Hpos. discriminate.
  - apply (proj2 Hcli). intros os u Hk.
    apply hasBillableData_false in Hhas.
    apply Qle_antisym; [apply (Hhas _ _ Hk) | apply (Hnn _ _ Hk)].
Qed.

(** X5.  On usage payloads of the documented shape (entries under UBUNTU,
    WINDOWS and MACOS only, no negative duration) the command-line tool and
    the web application make the same choice between billed usage and job
    timestamps and compute the same cost for every run, so their loops reach
    the same totals and the same count of analyzed runs. *)
Theorem cli_agrees_with_web (client : Cli.Client) (octokit : Octokit) :
  (forall i, Cli.getWorkflowRunTiming client i = getWorkflowRunUsage octokit i) ->
  (forall i, Cli.getWorkflowRunJobs client i = listJobsForWorkflowRun octokit i) ->
  (forall i timing,
      getWorkflowRunUsage octokit i = Js.Returned timing -> wellFormedUsage timing) ->
  (forall run, Cli.runCost client run = runCost octokit run) /\
  (forall runs t,
      fold_left (Cli.processRun client) runs t
      = fold_left (processRun octokit) runs t).
Proof.
  intros Htiming Hjobs Hwf.
  assert (Hrun : forall run, Cli.runCost client run = runCost octokit run).
  { intros run. unfold Cli.runCost, runCost, costFromUsage, costFromJobsOf.
    rewrite Htiming, Hjobs.
    destruct (getWorkflowRunUsage octokit (id run)) as [timing|e] eqn:Hu;
      cbn; [|reflexivity].
    unfold Cli.costFromTiming, costFromTiming.
    rewrite (wellFormed_fallback_agrees timing (Hwf _ _ Hu)).
    destruct (hasBillableData _); reflexivity. }
  split; [exact Hrun|].
  intros runs. induction runs as [|run runs IH]; intros t; cbn [fold_left];
    [reflexivity|].
  rewrite IH. f_equal. unfold Cli.processRun, processRun. now rewrite Hrun.
Qed.

Lemma demo_usage_wellFormed (i : Z) (timing : Timing) :
  getWorkflowRunUsage demoOctokit i = Js.Returned timing -> wellFormedUsage timing.
Proof.
  cbn. destruct (i <=? 4)%Z; [|discriminate].
  intros E. injection E as <-. intros k u. cbn.
  intros Hk. apply lookup_singleton_Some in Hk as [<- <-].
  split; [now left | discriminate].
Qed.

Lemma cli_agrees_with_web_witness :
  fold_left (Cli.processRun demoClient) tenRuns noTotals
  = fold_left (processRun demoOctokit) tenRuns noTotals.
Proof.
  apply (cli_agrees_with_web demoClient demoOctokit).
  - reflexivity.
  - reflexivity.
  - exact demo_usage_wellFormed.
Defined.

(** X6.  The two tools part on a payload whose billable time sits only under
    keys other than UBUNTU, WINDOWS and MACOS (the three classes absent or at
    zero): the web application keeps the run with a cost of zero, while the
    command-line tool discards the payload and bills the run from its job
    timestamps. *)
Theorem cli_and_web_differ_on_foreign_keys (timing : Timing) :
  let b := default ∅ (billable timing) in
  (exists k u, ~ classKey k /\ b !! k = Some u /\ 0 < total_ms u) ->
  (forall os u, b !! key os = Some u -> total_ms u == 0) ->
  costFromTiming timing = Js.Returned (costOfBillable b) /\
  total (costOfBillable b) == 0 /\
  Cli.costFromTiming timing
  = Js.Thrown (Js.Error "No billable data, falling back to jobs") /\
  (forall client run,
      Cli.getWorkflowRunTiming client (id run) = Js.Returned timing ->
      Cli.runCost client run
      = (jobs ← Cli.getWorkflowRunJobs client (id run);
         mret (calculateCostFromJobs jobs))).
Proof.
  intros b (k & u & _ & Hk & Hpos) Hzero.
  assert (Hhas : hasBillableData b = true) by (apply hasBillableData_spec; eauto).
  assert (Hcli : cliFallsBack timing = true).
  { apply (proj2 (cliFallsBack_iff_classes_zero timing
               (fun os u' Hu' => Qle_lteq_zero _ (Hzero os u' Hu')))).
    exact Hzero. }
  assert (Hthrow : Cli.costFromTiming timing
                   = Js.Thrown (Js.Error "No billable data, falling back to jobs"))
    by (unfold Cli.costFromTiming; now rewrite Hcli).
  split; [now apply costFromTiming_returned|]. split; [|split; [exact Hthrow|]].
  - apply Qeq_bool_iff. exact Hcli.
  - intros client run Hu. unfold Cli.runCost. rewrite Hu. cbn.
    now rewrite Hthrow.
Qed.

Lemma cli_and_web_differ_on_foreign_keys_witness :
  costFromTiming foreignUsage
  = Js.Returned (costOfBillable (default ∅ (billable foreignUsage))) /\
  Cli.costFromTiming foreignUsage
  = Js.Thrown (Js.Error "No billable data, falling back to jobs").
Proof.
  destruct (cli_and_web_differ_on_foreign_keys foreignUsage) as (H1 & _ & H3 & _).
  - exists "OTHER"%string, {| total_ms := 1000 |}. split; [|split].
    + intros [H|[H|H]]; discriminate.
    + vm_compute. reflexivity.
    + reflexivity.
  - intros os u. destruct os; vm_compute; intros H; try discriminate.
    injection H as <-. reflexivity.
  - split; [exact H1 | exact H3].
Defined.

(** ** The algebra of the loops *)

Lemma filter_length_Permutation {A} (f : A -> bool) (l l' : list A) :
  Permutation l l' -> length (List.filter f l) = length (List.filter f l').
Proof.
  induction 1 as [|x l l' _ IH|x y l|l l' l'' _ IH1 _ IH2]; cbn [List.filter].
  - reflexivity.
  - destruct (f x); cbn [length]; now rewrite IH.
  - destruct (f x), (f y); reflexivity.
  - now rewrite IH1.
Qed.

Lemma processRun_share (octokit : Octokit) (t : Totals) (run : Run) :
  let t' := processRun octokit t run in
  totalLinuxMinutes t'
  == totalLinuxMinutes t + runShare (fun c => minutes (bUBUNTU (breakdown c))) octokit run /\
  totalWindowsMinutes t'
  == totalWindowsMinutes t + runShare (fun c => minutes (bWINDOWS (breakdown c))) octokit run /\
  totalMacOSMinutes t'
  == totalMacOSMinutes t + runShare (fun c => minutes (bMACOS (breakdown c))) octokit run /\
  totalCost t' == totalCost t + runShare total octokit run /\
  analyzed t' = (analyzed t + (if runFails octokit run then 0 else 1))%nat.
Proof.
  unfold processRun, runShare, runFails.
  destruct (runCost octokit run) as [c|e]; cbn.
  - repeat split; try reflexivity; try lia.
  - repeat split; try ring; try lia.
Qed.

Lemma fold_processRun_share (octokit : Octokit) (runs : list Run) (t : Totals) :
  let t' := fold_left (processRun octokit) runs t in
  totalLinuxMinutes t'
  == totalLinuxMinutes t
     + sumQ (map (runShare (fun c => minutes (bUBUNTU (breakdown c))) octokit) runs) /\
  totalWindowsMinutes t'
  == totalWindowsMinutes t
     + sumQ (map (runShare (fun c => minutes (bWINDOWS (breakdown c))) octokit) runs) /\
  totalMacOSMinutes t'
  == totalMacOSMinutes t
     + sumQ (map (runShare (fun c => minutes (bMACOS (breakdown c))) octokit) runs) /\
  totalCost t' == totalCost t + sumQ (map (runShare total octokit) runs) /\
  (analyzed t' + length (List.filter (runFails octokit) runs)
   = analyzed t + length runs)%nat.
Proof.
  revert t. induction runs as [|run runs IH]; intros t; cbn [fold_left map sumQ].
  - cbn. repeat split; try ring; try lia.
  - destruct (IH (processRun octokit t run)) as (HL & HW & HM & HC & _).
    destruct (processRun_share octokit t run) as (HL1 & HW1 & HM1 & HC1 & _).
    cbn zeta in *.
    rewrite HL, HW, HM, HC, HL1, HW1, HM1, HC1.
    repeat split; try ring.
    apply (fold_processRun_analyzed octokit (run :: runs) t).
Qed.

(** X7.  The counts of the aggregate are additive over the batch: for a run
    list made of two lists, the number of listed runs and the number of
    analyzed runs are the sums of those of the two lists taken alone. *)
Theorem aggregate_counts_are_additive (octokit : Octokit) (owner repo : string)
    (days : Q) (runs1 runs2 : list Run) :
  let r := aggregate octokit owner repo days (runs1 ++ runs2) in
  let r1 := aggregate octokit owner repo days runs1 in
  let r2 := aggregate octokit owner repo days runs2 in
  totalRuns r = (totalRuns r1 + totalRuns r2)%nat /\
  analyzedRuns r = (analyzedRuns r1 + analyzedRuns r2)%nat.
Proof.
  intros r r1 r2. subst r r1 r2. unfold aggregate. cbn [totalRuns analyzedRuns].
  pose proof (fold_processRun_analyzed octokit (runs1 ++ runs2) noTotals) as HA.
  pose proof (fold_processRun_analyzed octokit runs1 noTotals) as HA1.
  pose proof (fold_processRun_analyzed octokit runs2 noTotals) as HA2.
  cbn [noTotals analyzed] in *.
  rewrite List.filter_app, !length_app in HA. rewrite length_app.
  split; lia.
Qed.

(** X8.  The counts of the aggregate do not depend on the order of the runs:
    two batches that list the same runs in different orders give the same
    number of listed runs and the same number of analyzed runs. *)
Theorem aggregate_counts_ignore_order (octokit : Octokit) (owner repo : string)
    (days : Q) (runs runs' : list Run) :
  Permutation runs runs' ->
  let r := aggregate octokit owner repo days runs in
  let r' := aggregate octokit owner repo days runs' in
  totalRuns r = totalRuns r' /\ analyzedRuns r = analyzedRuns r'.
Proof.
  intros Hperm r r'. subst r r'. unfold aggregate. cbn [totalRuns analyzedRuns].
  pose proof (fold_processRun_analyzed octokit runs noTotals) as HA.
  pose proof (fold_processRun_analyzed octokit runs' noTotals) as HA'.
  pose proof (Permutation_length Hperm) as Hlen.
  pose proof (filter_length_Permutation (runFails octokit) _ _ Hperm) as Hfail.
  split; lia.
Qed.

Lemma aggregate_counts_ignore_order_witness :
  let r := aggregate demoOctokit "octo" "repo" 7 tenRuns in
  let r' := aggregate demoOctokit "octo" "repo" 7 (rev tenRuns) in
  totalRuns r = 10%nat /\ totalRuns r' = 10%nat /\
  analyzedRuns r = 7%nat /\ analyzedRuns r' = 7%nat.
Proof.
  destruct (aggregate_counts_ignore_order demoOctokit "octo" "repo" 7 tenRuns
              (rev tenRuns)) as (HT & HA).
  - apply Permutation_rev.
  - cbv zeta in *. rewrite <- HT, <- HA. repeat split; vm_compute; reflexivity.
Defined.

Lemma per_minute_nonnegative (ms : Q) : 0 <= ms -> 0 <= ms / 60000.
Proof.
  intros H. assert (ms / 60000 == ms * (1 # 60000)) as -> by field.
  apply Qmult_le_0_compat; [exact H | discriminate].
Qed.

Lemma classCost_minutes_nonnegative (b : gmap string OsUsage) (os : RunnerOS) :
  (forall u, b !! key os = Some u -> 0 <= total_ms u) ->
  0 <= minutes (classCost b os).
Proof.
  intros Hnn. destruct (b !! key os) as [u|] eqn:Hk.
  - destruct (classCost_present b os u Hk) as [-> _].
    apply per_minute_nonnegative, Hnn. reflexivity.
  - rewrite (classCost_absent b os Hk). apply Qle_refl.
Qed.

Lemma contribution_nonnegative (os : RunnerOS) (job : Job) :
  orderedJob job -> 0 <= contribution os job.
Proof.
  intros Hord. unfold contribution, jobMinutes.
  destruct (started_at job) as [startTime|] eqn:Hs; [|apply Qle_refl].
  destruct (completed_at job) as [endTime|] eqn:He; [|apply Qle_refl].
  destruct (decide (jobOS job = os)); [|apply Qle_refl].
  apply per_minute_nonnegative.
  specialize (Hord startTime endTime Hs He).
  change 0 with (inject_Z 0). rewrite <- Zle_Qle. lia.
Qed.

Lemma contributions_nonnegative (os : RunnerOS) (jobs : list Job) :
  Forall orderedJob jobs -> 0 <= sumQ (map (contribution os) jobs).
Proof.
  induction 1 as [|job jobs Hjob _ IH]; cbn [map sumQ]; [apply Qle_refl|].
  pose proof (contribution_nonnegative os job Hjob). lra.
Qed.

(** A cost with no negative figure. *)
Lemma runCost_nonnegative (octokit : Octokit) (run : Run) (c : CostResult) :
  nonNegativeApi octokit ->
  runCost octokit run = Js.Returned c ->
  (forall os, 0 <= minutes (bucket os (breakdown c))) /\ 0 <= total c.
Proof.
  intros [Husage Hjobs] Hrun.
  destruct (runCost_cases octokit run c Hrun)
    as [(timing & Hu & Ht) | (jobs & Hj & ->)].
  - unfold costFromTiming in Ht.
    destruct (hasBillableData _); [|discriminate]. injection Ht as <-.
    set (b := default ∅ (billable timing)).
    assert (Hnn : forall os u, b !! key os = Some u -> 0 <= total_ms u)
      by (intros os u; apply (Husage _ _ _ _ Hu)).
    split.
    + intros os. rewrite bucket_costOfBillable.
      apply classCost_minutes_nonnegative, Hnn.
    + cbn [costOfBillable total].
      destruct (classCost_nonnegative b UBUNTU (Hnn UBUNTU)) as [HU _].
      destruct (classCost_nonnegative b WINDOWS (Hnn WINDOWS)) as [HW _].
      destruct (classCost_nonnegative b MACOS (Hnn MACOS)) as [HM _].
      lra.
  - specialize (Hjobs _ _ Hj). split.
    + intros os. rewrite jobs_minutes. now apply contributions_nonnegative.
    + rewrite jobs_total.
      pose proof (contributions_nonnegative UBUNTU jobs Hjobs) as HU.
      pose proof (contributions_nonnegative WINDOWS jobs Hjobs) as HW.
      pose proof (contributions_nonnegative MACOS jobs Hjobs) as HM.
      pose proof (Qmult_le_0_compat _ _ HU (Qlt_le_weak _ _ (rate_positive UBUNTU))).
      pose proof (Qmult_le_0_compat _ _ HW (Qlt_le_weak _ _ (rate_positive WINDOWS))).
      pose proof (Qmult_le_0_compat _ _ HM (Qlt_le_weak _ _ (rate_positive MACOS))).
      lra.
Qed.

Lemma runShare_nonnegative (octokit : Octokit) (figure : CostResult -> Q)
    (runs : list Run) :
  (forall run c, runCost octokit run = Js.Returned c -> 0 <= figure c) ->
  0 <= sumQ (map (runShare figure octokit) runs).
Proof.
  intros H. induction runs as [|run runs IH]; cbn [map sumQ]; [apply Qle_refl|].
  assert (0 <= runShare figure octokit run).
  { unfold runShare.
    destruct (runCost octokit run) as [c|e] eqn:E; [eauto | apply Qle_refl]. }
  lra.
Qed.

(** X9.  When the API reports no negative usage and no job that ends before
    it starts, no figure of the aggregate is negative: the three minute
    totals and the actual cost are at least zero, and for a positive window
    both projections are finite and at least zero. *)
Theorem aggregate_is_nonnegative (octokit : Octokit) (owner repo : string)
    (days : Q) (runs : list Run) :
  nonNegativeApi octokit ->
  let r := aggregate octokit owner repo days runs in
  0 <= linuxMinutes r /\ 0 <= windowsMinutes r /\ 0 <= macosMinutes r /\
  0 <= actualCost r /\
  (0 < days ->
   exists m y, monthlyCost r = Js.Finite m /\ yearlyCost r = Js.Finite y /\
               0 <= m /\ 0 <= y).
Proof.
  intros Hapi r. subst r. unfold aggregate.
  cbn [linuxMinutes windowsMinutes macosMinutes actualCost monthlyCost yearlyCost].
  destruct (fold_processRun_share octokit runs noTotals) as (HL & HW & HM & HC & _).
  cbn zeta in *. cbn [noTotals totalLinuxMinutes totalWindowsMinutes
                      totalMacOSMinutes totalCost] in *.
  assert (Hfig : forall figure,
             (forall run c, runCost octokit run = Js.Returned c -> 0 <= figure c) ->
             0 <= 0 + sumQ (map (runShare figure octokit) runs)).
  { intros figure H. pose proof (runShare_nonnegative octokit figure runs H). lra. }
  assert (H0L : 0 <= totalLinuxMinutes (fold_left (processRun octokit) runs noTotals)).
  { rewrite HL. apply Hfig. intros run c Hc.
    apply (proj1 (runCost_nonnegative octokit run c Hapi Hc) UBUNTU). }
  assert (H0W : 0 <= totalWindowsMinutes (fold_left (processRun octokit) runs noTotals)).
  { rewrite HW. apply Hfig. intros run c Hc.
    apply (proj1 (runCost_nonnegative octokit run c Hapi Hc) WINDOWS). }
  assert (H0M : 0 <= totalMacOSMinutes (fold_left (processRun octokit) runs noTotals)).
  { rewrite HM. apply Hfig. intros run c Hc.
    apply (proj1 (runCost_nonnegative octokit run c Hapi Hc) MACOS). }
  assert (H0C : 0 <= totalCost (fold_left (processRun octokit) runs noTotals)).
  { rewrite HC. apply Hfig. intros run c Hc.
    apply (proj2 (runCost_nonnegative octokit run c Hapi Hc)). }
  repeat split; try assumption.
  intros Hdays. assert (~ days == 0) as Hnz by lra.
  rewrite !(div_nonzero _ days Hnz). cbn [Js.mul].
  eexists. eexists. split; [reflexivity|]. split; [reflexivity|].
  assert (Hq : forall n, 0 <= n -> 0 <= n / days).
  { intros n Hn. apply Qle_shift_div_l; [exact Hdays | lra]. }
  split; apply Qmult_le_0_compat; try assumption; apply Hq; discriminate.
Qed.

Lemma demo_api_nonnegative : nonNegativeApi demoOctokit.
Proof.
  split.
  - intros i timing os u. cbn. destruct (i <=? 4)%Z; [|discriminate].
    intros E. injection E as <-. cbn.
    destruct os; cbn; intros Hk;
      rewrite ?lookup_singleton_eq, ?lookup_singleton_ne in Hk by discriminate;
      try discriminate.
    injection Hk as <-. discriminate.
  - intros i jobs. cbn. destruct (i <=? 7)%Z; [|discriminate].
    intros E. injection E as <-. constructor; [|constructor].
    intros s e. cbn. intros Hs He. injection Hs as <-. injection He as <-. lia.
Qed.

Lemma aggregate_is_nonnegative_witness :
  let r := aggregate demoOctokit "octo" "repo" 7 tenRuns in
  0 <= actualCost r /\
  exists m y, monthlyCost r = Js.Finite m /\ yearlyCost r = Js.Finite y /\
              0 <= m /\ 0 <= y.
Proof.
  destruct (aggregate_is_nonnegative demoOctokit "octo" "repo" 7 tenRuns
              demo_api_nonnegative) as (_ & _ & _ & HC & Hproj).
  split; [exact HC | apply Hproj; reflexivity].
Defined.

(** ** Labels and jobs *)

(** X10.  Classifying the labels of two lists together gives the stronger of
    the two classifications, macOS over Windows over Linux: further labels
    can raise the class of a job but never lower it. *)
Theorem detectRunnerOS_app (labels1 labels2 : list string) :
  detectRunnerOS (labels1 ++ labels2)
  = strongerOS (detectRunnerOS labels1) (detectRunnerOS labels2).
Proof.
  unfold detectRunnerOS. rewrite !map_app, !existsb_app.
  destruct (existsb (fun l => Js.includes l "macos" || Js.includes l "mac-os")
                    (map Js.toLowerCase labels1));
  destruct (existsb (fun l => Js.includes l "macos" || Js.includes l "mac-os")
                    (map Js.toLowerCase labels2));
  destruct (existsb (fun l => Js.includes l "windows") (map Js.toLowerCase labels1));
  destruct (existsb (fun l => Js.includes l "windows") (map Js.toLowerCase labels2));
  reflexivity.
Qed.

Section JobOrder.
Import PrimFloat.
Local Open Scope float_scope.

(** X11.  [calculateCostFromJobs] accumulates in list order, in binary64:
    for two job lists put together, the minutes and the cost of every class
    are the running sums of the first list continued with the timed jobs of
    the second.  The result can depend on the order of the jobs in its last
    bits: Linux jobs of 7, 11 and 13 seconds give 0.51666666666666661
    minutes in that order and 0.51666666666666672 in the reverse order. *)
Theorem jobs_accumulate_in_list_order (jobs1 jobs2 : list Job) (os : RunnerOS) :
  let r1 := F64.calculateCostFromJobs jobs1 in
  let r := F64.calculateCostFromJobs (jobs1 ++ jobs2) in
  F64.minutes (F64.bucket os (F64.breakdown r))
  = F64.runningSum (F64.minutes (F64.bucket os (F64.breakdown r1)))
                   (F64.classMinutes os jobs2) /\
  F64.cost (F64.bucket os (F64.breakdown r))
  = F64.runningSum (F64.cost (F64.bucket os (F64.breakdown r1)))
                   (map (fun m => m * F64.rate os) (F64.classMinutes os jobs2)) /\
  (let a := F64.bUBUNTU (F64.breakdown (F64.calculateCostFromJobs unevenJobs)) in
   let b := F64.bUBUNTU (F64.breakdown (F64.calculateCostFromJobs (rev unevenJobs))) in
   F64.minutes a = 0.51666666666666661 /\
   F64.minutes b = 0.51666666666666672 /\
   (F64.minutes a =? F64.minutes b) = false).
Proof.
  intros r1 r. subst r1 r. unfold F64.calculateCostFromJobs.
  cbn [F64.withTotal F64.breakdown]. rewrite fold_left_app.
  destruct (binary64_fold_addJob jobs2 (fold_left F64.addJob jobs1 F64.emptyCosts) os)
    as (Hm & Hc & _).
  cbn zeta in *. rewrite Hm, Hc.
  split; [reflexivity|]. split; [reflexivity|].
  repeat split; vm_compute; reflexivity.
Qed.

End JobOrder.

(** ** The web routes *)

Lemma parseRepository_match (s : string) (r : GithubApi.Repository) :
  GithubApi.parseRepository s = Js.Returned r <->
  GithubApi.matchOwnerRepo s = Some (GithubApi.owner r, GithubApi.repo r).
Proof.
  unfold GithubApi.parseRepository. destruct r as [o r].
  destruct (GithubApi.matchOwnerRepo s) as [[o' r']|]; cbn; split; intros H;
    try discriminate; now injection H as -> ->.
Qed.

Lemma parseRepository_nonempty (s : string) (r : GithubApi.Repository) :
  GithubApi.parseRepository s = Js.Returned r -> s <> EmptyString.
Proof. intros H ->. discriminate. Qed.

Lemma post_on_slug (errorText : Js.error -> string) (env : Web.Env) (now later : Z)
    (s : string) (r : GithubApi.Repository) (db : gmap string Web.Row) :
  GithubApi.parseRepository s = Js.Returned r ->
  Web.POST errorText env now later (Js.Returned (Some s)) db
  = match Web.recentCompleted s now db with
    | Some _ => (db, Web.Cached)
    | None =>
        match Web.pendingRow s db with
        | Some inProgress => (db, Web.Pending (Web.execution_id inProgress))
        | None =>
            let db1 := Web.insertPending (GithubApi.owner r) (GithubApi.repo r) s now db in
            match Web.COST_CALCULATOR env with
            | Some workflow =>
                match Web.trigger workflow
                        {| Ploy.owner := GithubApi.owner r; Ploy.repo := GithubApi.repo r;
                           Ploy.slug := s; Ploy.days := 7 |} with
                | Js.Returned executionId =>
                    (alter (Web.setExecution executionId) s db1,
                     Web.Pending (Some executionId))
                | Js.Thrown _ => (db1, Web.InternalError)
                end
            | None =>
                match calculateRepoCost (Web.octokit env) (GithubApi.owner r)
                        (GithubApi.repo r) 7 with
                | Js.Returned result =>
                    (alter (Web.setCompleted result later) s db1, Web.Completed)
                | Js.Thrown calcError =>
                    (alter (Web.setError (errorText calcError) later) s db1,
                     Web.Failed (errorText calcError))
                end
            end
        end
    end.
Proof.
  intros Hparse. pose proof (parseRepository_nonempty s r Hparse) as Hne.
  apply parseRepository_match in Hparse.
  unfold Web.POST. destruct s as [|c s]; [contradiction|]. now rewrite Hparse.
Qed.

(** X12.  [POST /api/calculate] validates before it touches the table: when
    the request carries no slug that [parseRepository] would accept (the
    body does not parse, holds no string slug, or the slug is not of the form
    owner/repo), the table is left as it was and the answer is a 400 or,
    for an unreadable body, a 500. *)
Theorem post_validates_before_writing (errorText : Js.error -> string)
    (env : Web.Env) (now later : Z) (body : Js.outcome (option string))
    (db : gmap string Web.Row) :
  (forall s r, body = Js.Returned (Some s) ->
               GithubApi.parseRepository s <> Js.Returned r) ->
  fst (Web.POST errorText env now later body db) = db /\
  (snd (Web.POST errorText env now later body db) = Web.BadRequest "Invalid slug" \/
   snd (Web.POST errorText env now later body db)
   = Web.BadRequest "Invalid format. Use: owner/repo" \/
   (snd (Web.POST errorText env now later body db) = Web.InternalError /\
    exists e, body = Js.Thrown e)).
Proof.
  intros Hbad. unfold Web.POST.
  destruct body as [[s|]|e]; cbn.
  - destruct s as [|c s]; [cbn; auto|].
    destruct (GithubApi.matchOwnerRepo (String c s)) as [[o r]|] eqn:Hm; [|cbn; auto].
    exfalso. apply (Hbad (String c s) {| GithubApi.owner := o; GithubApi.repo := r |} eq_refl).
    now apply parseRepository_match.
  - auto.
  - split; [reflexivity|]. right. right. eauto.
Qed.

Lemma post_validates_before_writing_witness :
  fst (Web.POST errorString directEnv 0 0 (Js.Returned (Some "octo/repo/extra"%string)) ∅)
  = ∅.
Proof.
  apply (post_validates_before_writing errorString directEnv 0 0
           (Js.Returned (Some "octo/repo/extra"%string)) ∅).
  intros s r E. injection E as <-. vm_compute. discriminate.
Defined.

(** X13.  A calculation is not started twice: for a well-formed slug whose
    row is pending, [POST] answers pending with the stored execution id, and
    for a row completed less than an hour ago it answers from the cache; in
    both cases the table is unchanged.  A row completed exactly an hour ago
    or earlier is not served from the cache. *)
Theorem post_does_not_restart (errorText : Js.error -> string) (env : Web.Env)
    (now later : Z) (s : string) (r : GithubApi.Repository)
    (db : gmap string Web.Row) (row : Web.Row) :
  GithubApi.parseRepository s = Js.Returned r ->
  db !! s = Some row ->
  let answer := Web.POST errorText env now later (Js.Returned (Some s)) db in
  (Web.status row = "pending"%string ->
   answer = (db, Web.Pending (Web.execution_id row))) /\
  (Web.status row = "completed"%string -> (now - 3600 < Web.updated_at row)%Z ->
   answer = (db, Web.Cached)) /\
  (Web.status row = "completed"%string -> (Web.updated_at row <= now - 3600)%Z ->
   snd answer <> Web.Cached).
Proof.
  intros Hparse Hrow answer. subst answer.
  rewrite (post_on_slug errorText env now later s r db Hparse).
  unfold Web.recentCompleted, Web.pendingRow. rewrite Hrow.
  split; [|split].
  - intros ->. reflexivity.
  - intros -> Hfresh. cbn. apply Z.ltb_lt in Hfresh. now rewrite Hfresh.
  - intros -> Hold. cbn. apply Z.ltb_ge in Hold. rewrite Hold.
    destruct (Web.COST_CALCULATOR env) as [w|].
    + destruct (Web.trigger w _); cbn; discriminate.
    + destruct (calculateRepoCost _ _ _ _); cbn; discriminate.
Qed.

Lemma post_does_not_restart_witness :
  Web.POST errorString directEnv 100 200 (Js.Returned (Some "octo/repo"%string))
    {[ "octo/repo"%string := Web.newRow "octo" "repo" "octo/repo" 50 ]}
  = ({[ "octo/repo"%string := Web.newRow "octo" "repo" "octo/repo" 50 ]},
     Web.Pending None).
Proof.
  pose proof (post_does_not_restart errorString directEnv 100 200 "octo/repo"
                {| GithubApi.owner := "octo"; GithubApi.repo := "repo" |}
                {[ "octo/repo"%string := Web.newRow "octo" "repo" "octo/repo" 50 ]}
                (Web.newRow "octo" "repo" "octo/repo" 50)
                eq_refl (lookup_singleton_eq _ _)) as (H & _).
  apply H. reflexivity.
Defined.

Lemma lookup_insertPending (o r s : string) (now : Z) (db : gmap string Web.Row) :
  exists row, Web.insertPending o r s now db !! s = Some row /\
              Web.status row = "pending"%string /\
              Web.execution_id row
              = match db !! s with
                | Some old => Web.execution_id old
                | None => None
                end.
Proof.
  unfold Web.insertPending. destruct (db !! s) as [old|];
    eexists; (split; [apply lookup_insert_eq | split; reflexivity]).
Qed.

(** X14.  Without the workflow binding a calculation is stored and read
    back: after [POST] has run the calculation for a well-formed slug that
    is neither cached nor pending, [GET] for the same owner and repository
    answers "completed" with exactly the figures [calculateRepoCost]
    returned for a window of 7 days and no error; when the calculation
    threw, [POST] answers with the text of the exception and [GET] answers
    "error" with that text and no data. *)
Theorem post_then_get_round_trip (errorText : Js.error -> string) (env : Web.Env)
    (now later now' : Z) (s : string) (r : GithubApi.Repository)
    (db : gmap string Web.Row) :
  GithubApi.parseRepository s = Js.Returned r ->
  Web.COST_CALCULATOR env = None ->
  Web.recentCompleted s now db = None ->
  Web.pendingRow s db = None ->
  let posted := Web.POST errorText env now later (Js.Returned (Some s)) db in
  let answer := Web.GET env now' [GithubApi.owner r; GithubApi.repo r] (fst posted) in
  fst answer = fst posted /\
  match calculateRepoCost (Web.octokit env) (GithubApi.owner r) (GithubApi.repo r) 7 with
  | Js.Returned result =>
      snd posted = Web.Completed /\
      exists body d,
        snd answer = Web.Status body /\
        Web.body_status body = "completed"%string /\
        Web.error body = None /\
        Web.data body = Some d /\
        Web.daysAnalyzed d = Some 7 /\
        Web.totalRuns d = Some (totalRuns result) /\
        Web.analyzedRuns d = Some (analyzedRuns result) /\
        Web.linuxMinutes d = Some (linuxMinutes result) /\
        Web.windowsMinutes d = Some (windowsMinutes result) /\
        Web.macosMinutes d = Some (macosMinutes result) /\
        Web.actualCost d = Some (actualCost result) /\
        Web.monthlyCost d = Some (monthlyCost result) /\
        Web.yearlyCost d = Some (yearlyCost result) /\
        Web.updatedAt d = later
  | Js.Thrown calcError =>
      snd posted = Web.Failed (errorText calcError) /\
      exists body,
        snd answer = Web.Status body /\
        Web.body_status body = "error"%string /\
        Web.data body = None /\
        Web.error body = Some (errorText calcError)
  end.
Proof.
  intros Hparse Hdirect Hfresh Hpending posted answer. subst answer posted.
  pose proof (proj1 (proj1 (parseRepository_spec s) r) Hparse) as (Hs & _).
  rewrite (post_on_slug errorText env now later s r db Hparse).
  rewrite Hfresh, Hpending, Hdirect. cbn zeta.
  destruct (lookup_insertPending (GithubApi.owner r) (GithubApi.repo r) s now db)
    as (row & Hrow & Hstatus & _).
  assert (Hjoin : String.concat "/" [GithubApi.owner r; GithubApi.repo r] = s)
    by (now rewrite Hs).
  destruct (calculateRepoCost (Web.octokit env) (GithubApi.owner r) (GithubApi.repo r) 7)
    as [result|calcError] eqn:Hcalc; cbn [fst snd]; unfold Web.GET;
    rewrite Hjoin, lookup_alter_eq, Hrow; cbn.
  - assert (daysAnalyzed result = 7) as Hdays.
    { unfold calculateRepoCost in Hcalc.
      destruct (listWorkflowRunsForRepo _ _); cbn in Hcalc; [|discriminate].
      now injection Hcalc as <-. }
    split; [reflexivity|]. split; [reflexivity|].
    eexists. eexists. split; [reflexivity|]. cbn.
    repeat split; try reflexivity. cbn. now rewrite Hdays.
  - split; [reflexivity|]. split; [reflexivity|].
    eexists. split; [reflexivity|]. cbn. repeat split; reflexivity.
Qed.

Lemma post_then_get_round_trip_witness :
  snd (Web.POST errorString directEnv 0 10 (Js.Returned (Some "octo/repo"%string)) ∅)
  = Web.Completed.
Proof.
  assert (Hfresh : Web.recentCompleted "octo/repo" 0 ∅ = None)
    by (vm_compute; reflexivity).
  assert (Hpending : Web.pendingRow "octo/repo" (∅ : gmap string Web.Row) = None)
    by (vm_compute; reflexivity).
  destruct (post_then_get_round_trip errorString directEnv 0 10 20 "octo/repo"
              {| GithubApi.owner := "octo"; GithubApi.repo := "repo" |} ∅
              eq_refl eq_refl Hfresh Hpending) as [_ H].
  cbn in H. exact (proj1 H).
Defined.



(** X16.  What [GET /api/status] can answer: 404 exactly when the table has
    no row for the slug; otherwise [data] is present only in an answer of
    status "completed", where it is the stored row and [error] is empty, and
    [error] is present only in an answer of status "error".  The request
    writes to the table only to mark a pending row as failed. *)
Theorem get_status_answers (env : Web.Env) (now : Z) (slugParts : list string)
    (db : gmap string Web.Row) :
  let s := String.concat "/" slugParts in
  let answer := Web.GET env now slugParts db in
  (snd answer = Web.NotFound <-> db !! s = None) /\
  (forall body, snd answer = Web.Status body ->
     (forall d, Web.data body = Some d ->
        Web.body_status body = "completed"%string /\ Web.error body = None /\
        fst answer = db /\
        exists row, db !! s = Some row /\ d = Web.dataOf row) /\
     (forall m, Web.error body = Some m -> Web.body_status body = "error"%string)) /\
  (fst answer = db \/
   exists row, db !! s = Some row /\ Web.status row = "pending"%string /\
     fst answer = alter (Web.setError "Workflow execution failed" now) s db).
Proof.
  intros s answer. subst answer. unfold Web.GET. fold s.
  assert (Hrow : forall row body,
             Web.rowStatus row = body ->
             (forall d, Web.data body = Some d ->
                Web.body_status body = "completed"%string /\ Web.error body = None /\
                d = Web.dataOf row) /\
             (forall m, Web.error body = Some m -> Web.body_status body = "error"%string)).
  { intros row body <-. unfold Web.rowStatus. cbn.
    destruct (String.eqb_spec (Web.status row) "completed") as [Hc|Hc];
      destruct (String.eqb_spec (Web.status row) "error") as [He|He].
    - rewrite Hc in He. discriminate.
    - split; [|discriminate]. intros d E. now injection E as <-.
    - split; [discriminate|]. intros m _. exact He.
    - split; discriminate. }
  destruct (db !! s) as [result|] eqn:Hlookup; cbn [fst snd].
  2: { split; [split; reflexivity|]. split; [discriminate | now left]. }
  destruct (String.eqb_spec (Web.status result) "pending") as [Hp|Hp].
  - destruct (Web.orNull (Web.execution_id result)) as [executionId|].
    + destruct (Web.execution env executionId) as [executionStatus|e]; cbn [fst snd].
      * destruct (String.eqb executionStatus "failed"); cbn [fst snd].
        -- split; [split; discriminate|]. split.
           ++ intros body E. injection E as <-. cbn. split; [discriminate|].
              intros m _. reflexivity.
           ++ right. eauto.
        -- split; [split; discriminate|]. split; [|now left].
           intros body E. injection E as <-. cbn. split; discriminate.
      * split; [split; discriminate|]. split; [|now left].
        intros body E. injection E as <-.
        destruct (Hrow result _ eq_refl) as [Hd He]. split; [|exact He].
        intros d Hdata. destruct (Hd d Hdata) as (? & ? & ->). eauto 6.
    + split; [split; discriminate|]. split; [|now left].
      intros body E. injection E as <-.
      destruct (Hrow result _ eq_refl) as [Hd He]. split; [|exact He].
      intros d Hdata. destruct (Hd d Hdata) as (? & ? & ->). eauto 6.
  - split; [split; discriminate|]. split; [|now left].
    intros body E. injection E as <-.
    destruct (Hrow result _ eq_refl) as [Hd He]. split; [|exact He].
    intros d Hdata. destruct (Hd d Hdata) as (? & ? & ->). eauto 6.
Qed.
